(** * spikesorters: the HDSort adapter and the sorter registry

    A shallow embedding of [spikesorters/hdsort/hdsort.py] and
    [spikesorters/sorterlist.py].  Python functions become functions in a
    state-and-exception monad over an explicit [World] (process environment,
    class attributes, file system, heap of dict objects, and a ghost trace of
    the effects performed). *)

From Stdlib Require Import ZArith String Ascii List.
From stdpp Require Import base gmap strings list sorting pretty.

Local Open Scope string_scope.

(** ** Python values *)

(** Python floats are kept abstract: the code only prints them, parses them
    back and tests their truth value. *)
Class PyFloat := {
  float : Type;
  float_eq_dec :: EqDecision float;
  (** the float written [m]e-[e] in the source text, as [4.2] is 42e-1 *)
  float_of_decimal : Z -> nat -> float;
  (** the text of ['{}'.format(x)] *)
  float_repr : float -> string;
  (** [float(text)]; [None] when Python raises [ValueError] *)
  float_of_string : string -> option float;
  (** [x == 0.0], the falsy floats *)
  float_is_zero : float -> bool;
}.

Module Py.
Section Values.
Context `{PyFloat}.

Inductive value :=
| VNone
| VBool (b : bool)
| VInt (n : Z)
| VFloat (x : float)
| VStr (s : string).

#[export] Instance value_eq_dec : EqDecision value.
Proof. solve_decision. Defined.

(** Truth value testing, as in [if v:]. *)
Definition truthy (v : value) : bool :=
  match v with
  | VNone => false
  | VBool b => b
  | VInt n => negb (n =? 0)%Z
  | VFloat x => negb (float_is_zero x)
  | VStr s => negb (String.eqb s EmptyString)
  end.

(** The text substituted for a [{name}] field with no format spec. *)
Definition py_str (v : value) : string :=
  match v with
  | VNone => "None"
  | VBool true => "True"
  | VBool false => "False"
  | VInt n => pretty n
  | VFloat x => float_repr x
  | VStr s => s
  end.

End Values.

(** ** Exceptions and results *)

Inductive exn :=
| AssertionError
| KeyError (key : string)
| IndexError
| ValueError (msg : string)
| FileNotFoundError (path : string)
| PyException (msg : string)
(** raised by the parts of [BaseSorter] that are modelled from the
    specification *)
| ConfigurationError (msg : string)
(** a format field using a conversion, a format spec, an attribute or an
    index: outside the modelled fragment of [str.format] *)
| FormatFieldNotModelled (field : string).

Inductive result (A : Type) :=
| Ok (a : A)
| Raise (e : exn).
Arguments Ok {A} a.
Arguments Raise {A} e.

Definition is_ok {A} (r : result A) : bool :=
  match r with Ok _ => true | Raise _ => false end.

(** ** Strings *)

Definition dquote : ascii := "034"%char.
Definition newline : string := String "010"%char EmptyString.

(** [s.startswith(c)] for a one-character [c]. *)
Definition startswith (s : string) (c : ascii) : bool :=
  match s with
  | String a _ => Ascii.eqb a c
  | EmptyString => false
  end.

(** The slice [s[1:-1]]. *)
Definition slice_1_m1 (s : string) : string :=
  String.substring 1 (String.length s - 2) s.

(** [sub in s]. *)
Fixpoint contains (sub s : string) : bool :=
  String.prefix sub s ||
  match s with
  | String _ s' => contains sub s'
  | EmptyString => false
  end.

(** [s.split('/')]. *)
Fixpoint split_slash (s : string) : list string :=
  match s with
  | EmptyString => [EmptyString]
  | String c s' =>
      if Ascii.eqb c "/"%char then EmptyString :: split_slash s'
      else match split_slash s' with
           | [] => [String c EmptyString]
           | x :: r => String c x :: r
           end
  end.

(** ['/'.join(l)]. *)
Fixpoint join_slash (l : list string) : string :=
  match l with
  | [] => EmptyString
  | [x] => x
  | x :: r => x +:+ "/" +:+ join_slash r
  end.

(** [f.readline()] on a freshly opened file: up to and including the first
    newline. *)
Fixpoint readline (s : string) : string :=
  match s with
  | EmptyString => EmptyString
  | String c s' =>
      if Ascii.eqb c "010"%char then String c EmptyString
      else String c (readline s')
  end.

(** ** [str.format] with keyword arguments

    The fragment used by the adapter: literal text, the escapes [{{] and
    [}}], and fields [{name}] looked up among the keyword arguments and
    printed with [py_str]. *)
Section Format.
Context `{PyFloat}.

Definition field_is_plain (name : string) : bool :=
  negb (contains "!" name || contains ":" name
        || contains "." name || contains "[" name).

Definition all_digits (name : string) : bool :=
  forallb (fun c => (48 <=? nat_of_ascii c)%nat && (nat_of_ascii c <=? 57)%nat)
          (list_ascii_of_string name).

Fixpoint kw_lookup (kw : list (string * value)) (name : string)
  : option value :=
  match kw with
  | [] => None
  | (k, v) :: kw' => if String.eqb k name then Some v else kw_lookup kw' name
  end.

Definition format_field (kw : list (string * value)) (name : string)
  : result string :=
  if negb (field_is_plain name) then Raise (FormatFieldNotModelled name)
  else if all_digits name then Raise IndexError
  else match kw_lookup kw name with
       | Some v => Ok (py_str v)
       | None => Raise (KeyError name)
       end.

Definition snoc (s : string) (c : ascii) : string := s +:+ String c EmptyString.

(** [field = None]: scanning literal text; [field = Some acc]: inside a
    replacement field whose name so far is [acc]. *)
Fixpoint format_go (kw : list (string * value)) (field : option string)
    (out : string) (s : string) : result string :=
  match field, s with
  | None, EmptyString => Ok out
  | None, String c r =>
      if Ascii.eqb c "{"%char then
        match r with
        | EmptyString => Raise (ValueError "Single '{' encountered in format string")
        | String c' r' =>
            if Ascii.eqb c' "{"%char then format_go kw None (snoc out c) r'
            else format_go kw (Some EmptyString) out r
        end
      else if Ascii.eqb c "}"%char then
        match r with
        | String c' r' =>
            if Ascii.eqb c' "}"%char then format_go kw None (snoc out c) r'
            else Raise (ValueError "Single '}' encountered in format string")
        | EmptyString => Raise (ValueError "Single '}' encountered in format string")
        end
      else format_go kw None (snoc out c) r
  | Some acc, EmptyString => Raise (ValueError "expected '}' before end of string")
  | Some acc, String c r =>
      if Ascii.eqb c "}"%char then
        match format_field kw acc with
        | Ok txt => format_go kw None (out +:+ txt) r
        | Raise e => Raise e
        end
      else if Ascii.eqb c "{"%char then
        Raise (ValueError "unexpected '{' in field name")
      else format_go kw (Some (snoc acc c)) out r
  end.

(** [template.format] applied to the keyword arguments [kw]. *)
Definition format (template : string) (kw : list (string * value))
  : result string :=
  format_go kw None EmptyString template.

End Format.
End Py.

(** ** [pathlib] paths, POSIX flavour *)

Module PathLib.
Import Py.

(** A path as [pathlib] keeps it: the root ([/], [//] or none) and the
    components, with empty and [.] components dropped while parsing. *)
Record Path := { root : string; parts : list string }.

#[export] Instance Path_eq_dec : EqDecision Path.
Proof. solve_decision. Defined.

Fixpoint leading_slashes (s : string) : nat :=
  match s with
  | String c s' => if Ascii.eqb c "/"%char then S (leading_slashes s') else 0
  | EmptyString => 0
  end.

Definition parse_root (s : string) : string :=
  match leading_slashes s with
  | 0 => EmptyString
  | 2 => "//"
  | _ => "/"
  end.

Definition is_component (c : string) : bool :=
  negb (String.eqb c EmptyString) && negb (String.eqb c ".").

(** [Path(s)]. *)
Definition Path_of_string (s : string) : Path :=
  {| root := parse_root s; parts := List.filter is_component (split_slash s) |}.

(** [str(p)]. *)
Definition Path_str (p : Path) : string :=
  match root p, parts p with
  | EmptyString, [] => "."
  | r, ps => r +:+ join_slash ps
  end.

Definition is_absolute (p : Path) : bool := negb (String.eqb (root p) EmptyString).

(** [p / q] for two paths: an absolute right operand replaces the left. *)
Definition joinpath (p q : Path) : Path :=
  if is_absolute q then q
  else {| root := root p; parts := parts p ++ parts q |}.

(** [p / name] with a string on the right. *)
Definition truediv (p : Path) (name : string) : Path :=
  joinpath p (Path_of_string name).

(** [p.parent]. *)
Definition parent (p : Path) : Path :=
  {| root := root p; parts := removelast (parts p) |}.

(** [p.absolute()] when [os.getcwd()] is [cwd]: no normalisation, no
    symlink resolution. *)
Definition absolute (cwd : string) (p : Path) : Path :=
  if is_absolute p then p else joinpath (Path_of_string cwd) p.

(** *** Well-formed paths: what parsing produces *)

Fixpoint slash_free (s : string) : bool :=
  match s with
  | EmptyString => true
  | String c s' => negb (Ascii.eqb c "/"%char) && slash_free s'
  end.

Definition comp_ok (c : string) : bool := is_component c && slash_free c.

Definition wf_path (p : Path) : Prop :=
  (root p = EmptyString \/ root p = "/" \/ root p = "//")
  /\ Forall (fun c => comp_ok c = true) (parts p).

(** [os.path.join(a, b)] for a relative [b]. *)
Definition os_path_join (a b : string) : string :=
  if String.eqb a EmptyString then b
  else if String.eqb (String.substring (String.length a - 1) 1 a) "/" then a +:+ b
  else a +:+ "/" +:+ b.

(** The path and all its ancestors, outermost first. *)
Definition ancestors_and_self (p : Path) : list Path :=
  List.map (fun k => {| root := root p; parts := take k (parts p) |})
           (seq 0 (S (length (parts p)))).

End PathLib.

Notation "p // name" := (PathLib.truediv p name)
  (at level 40, left associativity).

(** ** The world the program runs in *)

Module OS.
Import Py PathLib.

(** Ghost record of the effects performed, oldest first. *)
Inductive event :=
| EvStat (path : string)
| EvMakedirs (path : string)
| EvRemoveTree (path : string)
| EvRead (path : string)
| EvWrite (path : string)
| EvWriteRecording (path : string)
| EvSpawn (script : string)
| EvPrint (text : string)
| EvSetenv (name val : string)
| EvCall (fn : string).

#[export] Instance event_eq_dec : EqDecision event.
Proof. solve_decision. Defined.

(** The events of input and output, as opposed to the ghost [EvCall]. *)
Definition is_io (e : event) : bool :=
  match e with
  | EvCall _ | EvSetenv _ _ | EvRemoveTree _ => false
  | _ => true
  end.


Section World.
Context `{PyFloat}.

Record World := {
  (** [os.environ] *)
  environ : gmap string string;
  (** [sys.platform] *)
  platform : string;
  (** [os.getcwd()] *)
  getcwd : string;
  (** [__file__] of [hdsort.py] *)
  module_file : string;
  (** the directories and the regular files, keyed by the text of their
      absolute path *)
  dirs : gset string;
  files : gmap string string;
  (** the external program: from the script text and the files it finds
      to the files it leaves and its exit code *)
  shell : string -> gmap string string -> gmap string string * Z;
  (** the dict objects, by reference *)
  heap : gmap nat (gmap string value);
  (** the class attributes [HDSortSorter.hdsort_path] and
      [HDSortSorter.installed] *)
  hdsort_path : value;
  installed : bool;
  trace : list event;
}.

Definition set_environ (f : gmap string string -> gmap string string) (w : World) :=
  {| environ := f (environ w); platform := platform w; getcwd := getcwd w;
     module_file := module_file w; dirs := dirs w; files := files w;
     shell := shell w; heap := heap w; hdsort_path := hdsort_path w;
     installed := installed w; trace := trace w |}.

Definition set_dirs (f : gset string -> gset string) (w : World) :=
  {| environ := environ w; platform := platform w; getcwd := getcwd w;
     module_file := module_file w; dirs := f (dirs w); files := files w;
     shell := shell w; heap := heap w; hdsort_path := hdsort_path w;
     installed := installed w; trace := trace w |}.

Definition set_files (f : gmap string string -> gmap string string) (w : World) :=
  {| environ := environ w; platform := platform w; getcwd := getcwd w;
     module_file := module_file w; dirs := dirs w; files := f (files w);
     shell := shell w; heap := heap w; hdsort_path := hdsort_path w;
     installed := installed w; trace := trace w |}.

Definition set_heap
    (f : gmap nat (gmap string value) -> gmap nat (gmap string value)) (w : World) :=
  {| environ := environ w; platform := platform w; getcwd := getcwd w;
     module_file := module_file w; dirs := dirs w; files := files w;
     shell := shell w; heap := f (heap w); hdsort_path := hdsort_path w;
     installed := installed w; trace := trace w |}.

Definition set_class_attrs (path : value) (inst : bool) (w : World) :=
  {| environ := environ w; platform := platform w; getcwd := getcwd w;
     module_file := module_file w; dirs := dirs w; files := files w;
     shell := shell w; heap := heap w; hdsort_path := path;
     installed := inst; trace := trace w |}.

Definition log (e : event) (w : World) :=
  {| environ := environ w; platform := platform w; getcwd := getcwd w;
     module_file := module_file w; dirs := dirs w; files := files w;
     shell := shell w; heap := heap w; hdsort_path := hdsort_path w;
     installed := installed w; trace := trace w ++ [e] |}.

(** *** A state-and-exception monad *)

Definition M (A : Type) : Type := World -> result A * World.

Definition ret {A} (a : A) : M A := fun w => (Ok a, w).
Definition raise {A} (e : exn) : M A := fun w => (Raise e, w).
Definition bind {A B} (m : M A) (k : A -> M B) : M B :=
  fun w => match m w with
           | (Ok a, w') => k a w'
           | (Raise e, w') => (Raise e, w')
           end.
Definition lift {A} (r : result A) : M A := fun w => (r, w).
Definition get {A} (f : World -> A) : M A := fun w => (Ok (f w), w).
Definition modify (f : World -> World) : M unit := fun w => (Ok tt, f w).
Definition emit (e : event) : M unit := modify (log e).

End World.

Notation "'let!' x ':=' m 'in' k" := (bind m (fun x => k))
  (at level 10, x pattern, m at level 100, k at level 200).
Notation "m ';;' k" := (bind m (fun _ => k))
  (at level 100, k at level 200, right associativity).

Section FileSystem.
Context `{PyFloat}.

(** The key under which the file system keeps a path given as text. *)
Definition fs_key (w : World) (path : string) : string :=
  Path_str (absolute (getcwd w) (Path_of_string path)).

(** The path names a directory of the file system. *)
Definition dir_exists (w : World) (p : Path) : bool :=
  bool_decide (fs_key w (Path_str p) ∈ dirs w).

(** [p.is_dir()]. *)
Definition is_dir (p : Path) : M bool :=
  emit (EvStat (Path_str p));;
  get (fun w => dir_exists w p).

(** [os.makedirs(path, exist_ok=True)]. *)
Definition makedirs (path : string) : M unit :=
  emit (EvMakedirs path);;
  modify (fun w =>
    set_dirs (fun d =>
      d ∪ list_to_set (List.map Path_str
            (ancestors_and_self (absolute (getcwd w) (Path_of_string path))))) w).

(** [open(path, 'r')] followed by [f.read()]. *)
Definition read_file (path : string) : M string :=
  emit (EvRead path);;
  let! found := get (fun w => files w !! fs_key w path) in
  match found with
  | Some txt => ret txt
  | None => raise (FileNotFoundError path)
  end.

(** [open(path, 'w')] followed by [f.write(txt)]: the parent directory
    must exist. *)
Definition write_file (path txt : string) : M unit :=
  emit (EvWrite path);;
  let! ok := get (fun w =>
    bool_decide (Path_str (parent (absolute (getcwd w) (Path_of_string path)))
                 ∈ dirs w)) in
  if ok then modify (fun w => set_files (insert (fs_key w path) txt) w)
  else raise (FileNotFoundError path).

Definition under (folder key : string) : bool :=
  String.eqb folder key || String.prefix (folder +:+ "/") key.

(** [shutil.rmtree(path)]. *)
Definition remove_tree (path : string) : M unit :=
  emit (EvRemoveTree path);;
  modify (fun w =>
    let k := fs_key w path in
    set_files (filter (fun kv => under k kv.1 = false))
      (set_dirs (filter (fun d => under k d = false)) w)).

(** *** Dict objects *)

Definition new_dict (d : gmap string value) : M nat :=
  let! r := get (fun w => fresh (dom (heap w))) in
  modify (set_heap (insert r d));;
  ret r.

Definition deref (r : nat) (w : World) : gmap string value :=
  default ∅ (heap w !! r).

(** [d[k]]. *)
Definition getitem (r : nat) (k : string) : M value :=
  let! d := get (deref r) in
  match d !! k with
  | Some v => ret v
  | None => raise (KeyError k)
  end.

(** [d[k] = v]. *)
Definition setitem (r : nat) (k : string) (v : value) : M unit :=
  modify (fun w => set_heap (insert r (<[k := v]> (deref r w))) w).

End FileSystem.

(** *** Relations between the world before and the world after *)

(** What a relation between the world before and the world after must
    satisfy to be kept by the elementary steps: it is a preorder, and the
    elementary updates keep it under side conditions on the event logged
    ([okev]) and on the new heap ([okheap]). *)
Record stable `{PyFloat} (R : World -> World -> Prop) (okev : event -> Prop)
    (okheap : World -> gmap nat (gmap string value) -> Prop) : Prop := {
  st_refl : forall w, R w w;
  st_trans : forall a b c, R a b -> R b c -> R a c;
  st_log : forall w e, okev e -> R w (log e w);
  st_files : forall w f, R w (set_files f w);
  st_dirs : forall w f, R w (set_dirs f w);
  st_heap : forall w f, okheap w (f (heap w)) -> R w (set_heap f w);
  st_io : forall e, is_io e = true -> okev e;
}.

Section Relations.
Context `{PyFloat}.

(** Every run of [m] relates the world it starts in to the world it ends
    in. *)
Definition preserves {A} (R : World -> World -> Prop) (m : M A) : Prop :=
  forall w, R w (m w).2.

(** [h'] differs from [h] at most in the entries [K] of the dict [r], and
    has every entry that [h] has. *)
Definition heap_frame (r : nat) (K : list string)
    (h h' : gmap nat (gmap string value)) : Prop :=
  (forall r' k, (r' = r -> k ∉ K) ->
     default ∅ (h' !! r') !! k = default ∅ (h !! r') !! k)
  /\ (forall r' k, is_Some (default ∅ (h !! r') !! k) ->
        is_Some (default ∅ (h' !! r') !! k)).

(** The events other than the entry into the stages [fns]. *)
Definition not_call (fns : list string) (e : event) : Prop :=
  forall fn, fn ∈ fns -> e <> EvCall fn.

(** The trace grows by events satisfying [ok]; the external program stays
    the same. *)
Definition trace_ext (ok : event -> Prop) (w w' : World) : Prop :=
  shell w' = shell w
  /\ exists evs, trace w' = (trace w ++ evs)%list /\ Forall ok evs.

End Relations.
End OS.

(** ** External collaborators *)

Module Collaborators.
Import Py PathLib OS.
Section Collaborators.
Context `{PyFloat}.

(** The caller's recording: what [get_sampling_frequency()] returns and
    the data a serialization writer puts on disk. *)
Record Recording := { sampling_frequency : float; rec_data : string }.

(** The run result built by [se.MdaSortingExtractor]. *)
Record Sorting := { file_path : string; sorting_sampling_frequency : float }.

(** [se.Mea1kRecordingExtractor.write_recording(recording, save_path)]. *)
Definition write_recording (recording : Recording) (save_path : string) : M unit :=
  emit (EvWriteRecording save_path);;
  write_file save_path (rec_data recording).

(** [se.MdaSortingExtractor(file_path, sampling_frequency)]: the result
    file is opened when the extractor is built. *)
Definition MdaSortingExtractor (path : string) (samplerate : float) : M Sorting :=
  read_file path;;
  ret {| file_path := path; sorting_sampling_frequency := samplerate |}.

(** Modelled from the spec: [utils/shellscript.py] is not among the
    sources.  The Shell Invocation Helper runs the script as a child
    process ([start]) and reports its exit status ([wait]); the temporary
    copy of the script lives outside the output folder and is not
    modelled. *)
Definition ShellScript_start (script : string) : M Z :=
  emit (EvSpawn script);;
  let! r := get (fun w => shell w script (files w)) in
  modify (set_files (fun _ => r.1));;
  ret r.2.

(** Modelled from the spec: [wait] blocks until the child has exited and
    returns its exit status. *)
Definition ShellScript_wait (child : Z) : M Z := ret child.

End Collaborators.
End Collaborators.

(** ** The adapter base class *)

Module BaseSorter.
Import Py PathLib OS Collaborators.
Section BaseSorter.
Context `{PyFloat}.

(** Modelled from the spec: an adapter object, holding what the registry
    passes to the constructor; [self.params] is a reference to a dict. *)
Record Sorter := {
  params : nat;
  recording : Recording;
  output_folder : Path;
  delete_output_folder : bool;
  grouping_property : option string;
  parallel : bool;
  verbose : bool;
}.

(** Modelled from the spec: what an adapter class provides, its static
    descriptor and the hooks that [BaseSorter] calls. *)
Record SorterClass := {
  (** the identity of the class object *)
  class_name : string;
  cls_sorter_name : string;
  (** the class attribute [installed] as the registry reads it when
      [sorterlist] is imported *)
  cls_installed : bool;
  cls_default_params : gmap string value;
  (** the folder used when the caller gives none *)
  cls_default_folder : string;
  cls_setup_recording : Sorter -> Recording -> Path -> M unit;
  cls_run : Sorter -> Recording -> Path -> M unit;
  cls_get_result_from_folder : Path -> M Sorting;
  cls_get_sorter_version : M string;
}.

(** Modelled from the spec: [basesorter.py] is not among the sources.
    Construction seeds the Parameter Set from the defaults in a dict of its
    own and creates the Output Folder if absent. *)
Definition init (cls : SorterClass) (rec : Recording) (folder : option string)
    (grouping : option string) (par verb del : bool) : M Sorter :=
  let folder := Path_of_string (default (cls_default_folder cls) folder) in
  makedirs (Path_str folder);;
  let! r := new_dict (cls_default_params cls) in
  ret {| params := r; recording := rec; output_folder := folder;
         delete_output_folder := del; grouping_property := grouping;
         parallel := par; verbose := verb |}.

(** Modelled from the spec: [set_params] overrides defaults with the
    caller's values; a key that is not in the Parameter Table is
    rejected. *)
Definition set_params (cls : SorterClass) (self : Sorter)
    (kw : list (string * value)) : M unit :=
  match List.find (fun kv => bool_decide (kv.1 ∉ dom (cls_default_params cls))) kw with
  | Some kv => raise (ConfigurationError kv.1)
  | None =>
      List.fold_left (fun m kv => m;; setitem (params self) kv.1 kv.2) kw (ret tt)
  end.

(** Modelled from the spec: [run] executes the stages in order (the
    adapter's [_setup_recording] validates, prepares and renders; its
    [_run] executes and finalizes); a failing stage aborts the run and its
    error surfaces to the caller. *)
Definition run (cls : SorterClass) (self : Sorter) : M unit :=
  cls_setup_recording cls self (recording self) (output_folder self);;
  cls_run cls self (recording self) (output_folder self).

(** Modelled from the spec: [get_result] is the Parse stage; the Output
    Folder is optionally deleted after the result is retrieved. *)
Definition get_result (cls : SorterClass) (self : Sorter) : M Sorting :=
  let! sorting := cls_get_result_from_folder cls (output_folder self) in
  (if delete_output_folder self then remove_tree (Path_str (output_folder self))
   else ret tt);;
  ret sorting.

End BaseSorter.
End BaseSorter.

(** ** [spikesorters/hdsort/hdsort.py] *)

Module HDSort.
Import Py PathLib OS Collaborators BaseSorter.
Section Adapter.
Context `{PyFloat}.

(** Lines 17-18: the quote stripping of [check_if_installed]. *)
Definition strip_quotes (hdsort_path : string) : string :=
  if startswith hdsort_path dquote then slice_1_m1 hdsort_path
  else hdsort_path.

Definition check_if_installed (hdsort_path : value) : M bool :=
  match hdsort_path with
  | VNone => ret false
  | VStr hdsort_path =>
      let hdsort_path := strip_quotes hdsort_path in
      let! cwd := get getcwd in
      let hdsort_path := Path_str (absolute cwd (Path_of_string hdsort_path)) in
      let! found := is_dir (Path_of_string hdsort_path // "+hdsort") in
      if found then ret true else ret false
  | _ => raise AssertionError
  end.

Definition sorter_name : string := "hdsort".

Definition _default_params : gmap string value :=
  list_to_map
    [("detect_threshold", VFloat (float_of_decimal 42 1));
     ("detect_sign", VInt (-1));
     ("filter", VBool true);
     ("parfor", VBool true);
     ("hpf", VInt 300);
     ("lpf", VInt 7000);
     ("n_pc_dims", VInt 6);
     ("chunk_size", VInt 500000);
     ("loop_mode", VStr "local_parfor")].

Definition installation_mesg : string :=
  newline +:+ "To use HDSort run:" +:+ newline +:+ newline
  +:+ "        >>> git clone https://git.bsse.ethz.ch/hima_public/HDsort.git" +:+ newline
  +:+ "    and provide the installation path by setting the HDSORT_PATH" +:+ newline
  +:+ "    environment variables or using HDSortSorter.set_hdsort_path()."
  +:+ newline +:+ newline +:+ newline +:+ newline
  +:+ "    More information on HDSort at:" +:+ newline
  +:+ "        https://git.bsse.ethz.ch/hima_public/HDsort.git" +:+ newline
  +:+ "    ".

(** The class body, lines 31-32, run when the module is imported. *)
Definition class_body : M unit :=
  let! p := get (fun w => environ w !! "HDSORT_PATH") in
  let path := from_option VStr VNone p in
  let! inst := check_if_installed path in
  modify (set_class_attrs path inst).

Definition get_sorter_version : M string :=
  let! p := get (fun w => environ w !! "HDSORT_PATH") in
  match p with
  | None => ret "unknown"
  | Some p =>
      let! txt := read_file (os_path_join p "version.txt") in
      ret (readline txt)
  end.

Definition set_hdsort_path (path : value) : M unit :=
  modify (fun w => set_class_attrs path (installed w) w);;
  let! cls_path := get hdsort_path in
  let! inst := check_if_installed cls_path in
  modify (set_class_attrs path inst);;
  emit (EvPrint ("Setting HDSORT_PATH environment variable for subprocess calls to: "
                 +:+ py_str path));;
  match path with
  | VStr s =>
      emit (EvSetenv "HDSORT_PATH" s);;
      modify (set_environ (insert "HDSORT_PATH" s))
  | _ => emit (EvPrint "Could not set HDSORT_PATH environment variable:")
  end.

(** The keys of [self.params] that [_setup_recording] assigns. *)
Definition setup_keys : list string :=
  ["file_name"; "file_format"; "sort_name"; "filter"; "parfor"].

(** Validate, prepare and render.  The leading [EvCall], here and in the
    two methods below, is a ghost mark of the entry into the method. *)
Definition _setup_recording (self : Sorter) (recording : Recording)
    (output_folder : Path) : M unit :=
  emit (EvCall "_setup_recording");;
  let! cls_path := get hdsort_path in
  let! inst := check_if_installed cls_path in
  if negb inst then raise (PyException installation_mesg) else
  match cls_path with
  | VStr cls_path =>
      let! cwd := get getcwd in
      let! here := get module_file in
      let source_dir := parent (Path_of_string here) in
      let utils_path := parent source_dir // "utils" in
      let file_name := output_folder // "recording.h5" in
      write_recording recording (Path_str file_name);;
      setitem (params self) "file_name" (VStr (Path_str (absolute cwd file_name)));;
      setitem (params self) "file_format" (VStr "mea1k");;
      let p := params self in
      setitem p "sort_name" (VStr "hdsort_output");;
      let! hdsort_master_txt := read_file (Path_str (source_dir // "hdsort_master.m")) in
      let! hdsort_config_txt := read_file (Path_str (source_dir // "hdsort_config.m")) in
      let! file_name_v := getitem p "file_name" in
      let! file_format_v := getitem p "file_format" in
      let! sort_name_v := getitem p "sort_name" in
      let! chunk_size_v := getitem p "chunk_size" in
      let! loop_mode_v := getitem p "loop_mode" in
      let! hdsort_master_txt :=
        lift (format hdsort_master_txt
          [("hdsort_path", VStr (Path_str (absolute cwd (Path_of_string cls_path))));
           ("utils_path", VStr (Path_str (absolute cwd utils_path)));
           ("output_folder", VStr (Path_str output_folder));
           ("config_path",
            VStr (Path_str (absolute cwd (output_folder // "hdsort_config.m"))));
           ("file_name", file_name_v);
           ("file_format", file_format_v);
           ("sort_name", sort_name_v);
           ("chunk_size", chunk_size_v);
           ("loop_mode", loop_mode_v)]) in
      let! flt := getitem p "filter" in
      (if truthy flt then setitem p "filter" (VInt 1)
       else setitem p "filter" (VInt 0));;
      let! pf := getitem p "parfor" in
      (if truthy pf then setitem p "parfor" (VStr "true")
       else setitem p "parfor" (VStr "false"));;
      let! filter_v := getitem p "filter" in
      let! parfor_v := getitem p "parfor" in
      let! hpf_v := getitem p "hpf" in
      let! lpf_v := getitem p "lpf" in
      let! detect_threshold_v := getitem p "detect_threshold" in
      let! n_pc_dims_v := getitem p "n_pc_dims" in
      let! hdsort_config_txt :=
        lift (format hdsort_config_txt
          [("filter", filter_v);
           ("parfor", parfor_v);
           ("hpf", hpf_v);
           ("lpf", lpf_v);
           ("detect_threshold", detect_threshold_v);
           ("n_pc_dims", n_pc_dims_v)]) in
      write_file (Path_str (output_folder // "hdsort_master.m")) hdsort_master_txt;;
      write_file (Path_str (output_folder // "hdsort_config.m")) hdsort_config_txt
  | _ => raise AssertionError
  end.

(** The message of the exception raised on line 198. *)
Definition nonzero_exit_msg : string := "HDsort returned a non-zero exit code".

(** The ghost labels of the stages from Execute on. *)
Definition from_execute_on : list string := ["_run"; "get_result_from_folder"].

Definition indent (n : nat) : string := string_of_list_ascii (repeat " "%char n).

Definition shell_cmd_win : string :=
  newline +:+ indent 24 +:+ "cd {tmpdir}" +:+ newline
  +:+ indent 24 +:+ "matlab -nosplash -nodisplay -wait -r hdsort_master" +:+ newline
  +:+ indent 20.

Definition shell_cmd_posix : string :=
  newline +:+ indent 24 +:+ "#!/bin/bash" +:+ newline
  +:+ indent 24 +:+ "cd " +:+ String dquote "{tmpdir}" +:+ String dquote newline
  +:+ indent 24 +:+ "matlab -nosplash -nodisplay -r hdsort_master" +:+ newline
  +:+ indent 20.

(** Execute and finalize. *)
Definition _run (self : Sorter) (recording : Recording) (output_folder : Path)
  : M unit :=
  emit (EvCall "_run");;
  let tmpdir := output_folder in
  makedirs (Path_str tmpdir);;
  let samplerate := sampling_frequency recording in
  let! plat := get platform in
  let! shell_cmd :=
    lift (if contains "win" plat && negb (String.eqb plat "darwin")
          then format shell_cmd_win [("tmpdir", VStr (Path_str output_folder))]
          else format shell_cmd_posix [("tmpdir", VStr (Path_str output_folder))]) in
  let! child := ShellScript_start shell_cmd in
  let! retcode := ShellScript_wait child in
  if negb (retcode =? 0)%Z
  then raise (PyException nonzero_exit_msg)
  else
    let samplerate_fname := Path_str (output_folder // "samplerate.txt") in
    write_file samplerate_fname (py_str (VFloat samplerate)).

(** Parse.  [Path(output_folder)] is the identity on a path. *)
Definition get_result_from_folder (output_folder : Path) : M Sorting :=
  emit (EvCall "get_result_from_folder");;
  let result_fname := Path_str (output_folder // "firings.mda") in
  let samplerate_fname := Path_str (output_folder // "samplerate.txt") in
  let! txt := read_file samplerate_fname in
  match float_of_string txt with
  | None => raise (ValueError "could not convert string to float")
  | Some samplerate =>
      emit (EvPrint (py_str (VFloat samplerate)));;
      MdaSortingExtractor result_fname samplerate
  end.

(** The class as the registry sees it; [installed0] is the value of
    [HDSortSorter.installed] when [sorterlist] is imported, and
    [default_folder] the output folder [BaseSorter] falls back on. *)
Definition HDSortSorter (installed0 : bool) (default_folder : string)
  : SorterClass :=
  {| class_name := "HDSortSorter";
     cls_sorter_name := sorter_name;
     cls_installed := installed0;
     cls_default_params := _default_params;
     cls_default_folder := default_folder;
     cls_setup_recording := _setup_recording;
     cls_run := _run;
     cls_get_result_from_folder := get_result_from_folder;
     cls_get_sorter_version := get_sorter_version |}.

End Adapter.
End HDSort.

(** ** [spikesorters/sorterlist.py] *)

Module SorterList.
Import Py PathLib OS Collaborators BaseSorter.
Section Registry.
Context `{PyFloat}.

(** The adapter classes in the order of [sorter_full_list]. *)
Variable sorter_full_list : list SorterClass.

(** The dict comprehension: a later class of the same name replaces an
    earlier one. *)
Definition sorter_dict : gmap string SorterClass :=
  List.fold_left (fun d s => <[cls_sorter_name s := s]> d) sorter_full_list ∅.

Definition installed_sorter_list : list SorterClass :=
  List.filter cls_installed sorter_full_list.

(** [sorted] on a list of [str]. *)
Definition sorted (l : list string) : list string := merge_sort String.le l.

(** The first argument of [run_sorter]: a [str], an adapter class, or
    any other value. *)
Inductive name_or_class :=
| ByName (name : string)
| ByClass (cls : SorterClass)
| ByOther (v : value).

Definition class_in (cls : SorterClass) (l : list SorterClass) : bool :=
  existsb (fun s => String.eqb (class_name s) (class_name cls)) l.

Definition resolve (sorter_name_or_class : name_or_class) : M SorterClass :=
  match sorter_name_or_class with
  | ByName name =>
      match sorter_dict !! name with
      | Some cls => ret cls
      | None => raise (KeyError name)
      end
  | ByClass cls =>
      if class_in cls sorter_full_list then ret cls
      else raise (ValueError "Unknown sorter")
  | ByOther _ => raise (ValueError "Unknown sorter")
  end.

Definition run_sorter (sorter_name_or_class : name_or_class)
    (recording : Recording) (output_folder : option string)
    (delete_output_folder : bool) (grouping_property : option string)
    (parallel verbose : bool) (params : list (string * value)) : M Sorting :=
  let! SorterClass := resolve sorter_name_or_class in
  let! sorter := init SorterClass recording output_folder grouping_property
                      parallel verbose delete_output_folder in
  set_params SorterClass sorter params;;
  run SorterClass sorter;;
  let! sortingextractor := get_result SorterClass sorter in
  ret sortingextractor.

Definition available_sorters : list string :=
  sorted (map_to_list sorter_dict).*1.

Definition installed_sorters : list string :=
  sorted (List.map cls_sorter_name installed_sorter_list).

Definition get_default_params (sorter_name_or_class : name_or_class)
  : M (gmap string value) :=
  let! SorterClass := resolve sorter_name_or_class in
  ret (cls_default_params SorterClass).

(** The slice [txt[:-1]]. *)
Definition drop_last (txt : string) : string :=
  String.substring 0 (String.length txt - 1) txt.

Definition print_sorter_versions : M unit :=
  let! txt :=
    List.fold_left
      (fun acc name =>
         let! txt := acc in
         let! cls := match sorter_dict !! name with
                     | Some cls => ret cls
                     | None => raise (KeyError name)
                     end in
         let! version := cls_get_sorter_version cls in
         ret (txt +:+ name +:+ ": " +:+ version +:+ newline))
      installed_sorters (ret EmptyString) in
  emit (EvPrint (drop_last txt)).

Definition run_hdsort := run_sorter (ByName "hdsort").

End Registry.
End SorterList.


(** ** Decimal floats

    A computable instance of [PyFloat] for running the model: the floats
    with a short decimal expansion, [(m, e)] standing for m / 10^e with no
    trailing zero digit in the fraction.  Python prints such a float as the
    same decimal, with at least one digit after the point. *)

Module DecimalFloat.
Import Py.

Fixpoint canon (m : Z) (e : nat) : Z * nat :=
  match e with
  | 0 => (m, 0)
  | S e' => if (m mod 10 =? 0)%Z then canon (m / 10) e' else (m, e)
  end.

Definition zeros (n : nat) : string := string_of_list_ascii (repeat "0"%char n).

Definition repr (x : Z * nat) : string :=
  let (m, e) := x in
  let sign := if (m <? 0)%Z then "-" else EmptyString in
  let ds := pretty (Z.abs m) in
  let ds := zeros (S e - String.length ds) +:+ ds in
  let n := String.length ds - e in
  sign +:+ String.substring 0 n ds +:+ "."
  +:+ (if Nat.eqb e 0 then "0" else String.substring n e ds).

Fixpoint digits_value (acc : Z) (s : string) : option Z :=
  match s with
  | EmptyString => Some acc
  | String c s' =>
      let d := nat_of_ascii c in
      if (48 <=? d)%nat && (d <=? 57)%nat
      then digits_value (acc * 10 + Z.of_nat (d - 48))%Z s'
      else None
  end.

Fixpoint split_point (s : string) : string * option string :=
  match s with
  | EmptyString => (EmptyString, None)
  | String c s' =>
      if Ascii.eqb c "."%char then (EmptyString, Some s')
      else let (a, b) := split_point s' in (String c a, b)
  end.

Definition parse_unsigned (s : string) : option (Z * nat) :=
  let (ip, fp) := split_point s in
  if String.eqb ip EmptyString then None else
  match fp with
  | None => (fun m => (m, 0)) <$> digits_value 0 ip
  | Some fp =>
      if String.eqb fp EmptyString then None else
      (fun m => canon m (String.length fp)) <$> digits_value 0 (ip +:+ fp)
  end.

Definition parse (s : string) : option (Z * nat) :=
  match s with
  | String "-"%char s' => (fun x => (- x.1, x.2)%Z) <$> parse_unsigned s'
  | _ => parse_unsigned s
  end.

#[export] Instance decimal_float : PyFloat :=
  {| float := Z * nat;
     float_of_decimal := canon;
     float_repr := repr;
     float_of_string := parse;
     float_is_zero := fun x => (x.1 =? 0)%Z |}.

End DecimalFloat.

(** ** Concrete worlds for running the model *)

Module Demo.
Import Py PathLib OS Collaborators BaseSorter HDSort DecimalFloat.

Definition master_template : string :=
  "addpath(genpath('{hdsort_path}')); addpath('{utils_path}');" +:+ newline
  +:+ "cd('{output_folder}'); run('{config_path}');" +:+ newline
  +:+ "sort('{file_name}', '{file_format}', '{sort_name}', {chunk_size}, '{loop_mode}');"
  +:+ newline.

Definition config_template : string :=
  "P.filter = {filter}; P.parfor = {parfor};" +:+ newline
  +:+ "P.hpf = {hpf}; P.lpf = {lpf};" +:+ newline
  +:+ "P.detect_threshold = {detect_threshold}; P.n_pc_dims = {n_pc_dims};" +:+ newline.

(** A mock of the external tool: it leaves a result file in [/data/out]
    and exits with [code]. *)
Definition mock_tool (code : Z) (script : string) (fs : gmap string string)
  : gmap string string * Z :=
  (<["/data/out/firings.mda" := "spikes"]> fs, code).

Definition world (code : Z) : World :=
  {| environ := {["HDSORT_PATH" := "/opt/HDsort"]};
     platform := "linux";
     getcwd := "/data";
     module_file := "/site/spikesorters/hdsort/hdsort.py";
     dirs := list_to_set ["/"; "/opt"; "/opt/HDsort"; "/opt/HDsort/+hdsort";
                          "/data"; "/data/out"];
     files := {["/site/spikesorters/hdsort/hdsort_master.m" := master_template;
                "/site/spikesorters/hdsort/hdsort_config.m" := config_template;
                "/opt/HDsort/version.txt" := "1.0.2" +:+ newline +:+ "more"]};
     shell := mock_tool code;
     heap := {[0 := _default_params]};
     hdsort_path := VStr "/opt/HDsort";
     installed := true;
     trace := [] |}.

Definition rec30k : Recording :=
  {| sampling_frequency := canon 30000 0; rec_data := "samples" |}.

Definition hdsort_cls : SorterClass := HDSortSorter true "hdsort_output".

(** An adapter object on the folder [out]; its params dict, at reference
    0 of the heap of [world], holds the defaults. *)
Definition sorter0 : Sorter :=
  {| params := 0; recording := rec30k; output_folder := Path_of_string "out";
     delete_output_folder := false; grouping_property := None;
     parallel := false; verbose := false |}.

(** The entries [keys] of the params dict of [sorter0], read just before
    and just after [_setup_recording]. *)
Definition params_around_setup (keys : list string)
  : M (list (option value) * list (option value)) :=
  let! before := get (deref (params sorter0)) in
  _setup_recording sorter0 rec30k (output_folder sorter0);;
  let! after := get (deref (params sorter0)) in
  ret (List.map (fun k => before !! k) keys, List.map (fun k => after !! k) keys).

(** Render twice on [sorter0] configured with [parfor], reading the
    rendered config script after each render. *)
Definition render_twice (parfor : value) : M (string * string) :=
  setitem (params sorter0) "parfor" parfor;;
  _setup_recording sorter0 rec30k (output_folder sorter0);;
  let! first := read_file "out/hdsort_config.m" in
  _setup_recording sorter0 rec30k (output_folder sorter0);;
  let! second := read_file "out/hdsort_config.m" in
  ret (first, second).

End Demo.

(** ** Assertions about a run *)

Module Hoare.
Import Py PathLib OS.
Section Hoare.
Context `{PyFloat}.

(** Whenever [m] starts where [P] holds and returns, [Q] holds where it
    ends. *)
Definition ensures {A} (m : M A) (P Q : World -> Prop) : Prop :=
  forall w a w', P w -> m w = (Ok a, w') -> Q w'.

(** Two worlds with the same process environment, class attributes,
    directories and external program: they differ at most in the heap, the
    files and the trace. *)
Definition same_env (w0 w : World) : Prop :=
  environ w = environ w0 /\ platform w = platform w0 /\ getcwd w = getcwd w0
  /\ module_file w = module_file w0 /\ dirs w = dirs w0 /\ shell w = shell w0
  /\ hdsort_path w = hdsort_path w0 /\ installed w = installed w0.

(** A world around [w0] whose heap satisfies [Hp] and whose files satisfy
    [Fp]. *)
Definition on (w0 : World) (Hp : gmap nat (gmap string value) -> Prop)
    (Fp : gmap string string -> Prop) (w : World) : Prop :=
  Hp (heap w) /\ Fp (files w) /\ same_env w0 w.

(** The heap after [d[k] = v] on the dict [r]. *)
Definition store (r : nat) (k : string) (v : value)
    (h : gmap nat (gmap string value)) : gmap nat (gmap string value) :=
  <[r := <[k := v]> (default ∅ (h !! r))]> h.

(** The entry [k] of the dict [r] in the heap [h]. *)
Definition entry (r : nat) (k : string) (h : gmap nat (gmap string value))
  : option value :=
  default ∅ (h !! r) !! k.

End Hoare.
End Hoare.

(** ** What the adapter is expected to produce, written out *)

Module Expected.
Import Py PathLib OS Collaborators BaseSorter HDSort Hoare.
Section Expected.
Context `{PyFloat}.

(** The script handed to the shell on a POSIX platform and on Windows. *)
Definition posix_script (folder : string) : string :=
  newline +:+ indent 24 +:+ "#!/bin/bash" +:+ newline
  +:+ indent 24 +:+ "cd " +:+ String dquote folder +:+ String dquote newline
  +:+ indent 24 +:+ "matlab -nosplash -nodisplay -r hdsort_master" +:+ newline
  +:+ indent 20.

Definition win_script (folder : string) : string :=
  newline +:+ indent 24 +:+ "cd " +:+ folder +:+ newline
  +:+ indent 24 +:+ "matlab -nosplash -nodisplay -wait -r hdsort_master" +:+ newline
  +:+ indent 20.

(** The script that [_run] hands to the shell on the platform [plat]. *)
Definition run_script (plat folder : string) : string :=
  if contains "win" plat && negb (String.eqb plat "darwin")
  then win_script folder else posix_script folder.

(** The line that [print_sorter_versions] adds for the sorter [name]. *)
Definition version_line (version : string -> string) (name : string) : string :=
  name +:+ ": " +:+ version name +:+ newline.

(** The lines of a text, one after the other. *)
Fixpoint concat_lines (lines : list string) : string :=
  match lines with
  | [] => EmptyString
  | line :: rest => line +:+ concat_lines rest
  end.

(** The keyword arguments of the two [format] calls of
    [_setup_recording], from the values they are given. *)
Definition master_kwargs (cwd here hp : string) (folder : Path)
    (file_name file_format sort_name chunk_size loop_mode : value)
  : list (string * value) :=
  [("hdsort_path", VStr (Path_str (absolute cwd (Path_of_string hp))));
   ("utils_path",
    VStr (Path_str (absolute cwd (parent (parent (Path_of_string here)) // "utils"))));
   ("output_folder", VStr (Path_str folder));
   ("config_path", VStr (Path_str (absolute cwd (folder // "hdsort_config.m"))));
   ("file_name", file_name);
   ("file_format", file_format);
   ("sort_name", sort_name);
   ("chunk_size", chunk_size);
   ("loop_mode", loop_mode)].

Definition config_kwargs (filter parfor hpf lpf detect_threshold n_pc_dims : value)
  : list (string * value) :=
  [("filter", filter); ("parfor", parfor); ("hpf", hpf); ("lpf", lpf);
   ("detect_threshold", detect_threshold); ("n_pc_dims", n_pc_dims)].

(** The literals that [_setup_recording] stores for [filter] and
    [parfor]. *)
Definition filter_literal (v : value) : value := VInt (if truthy v then 1 else 0).
Definition parfor_literal (v : value) : value :=
  VStr (if truthy v then "true" else "false").

(** What a successful [_setup_recording] on the world [w0] leaves in the
    world [w1]. *)
Definition rendered (self : Sorter) (rec : Recording) (folder : Path)
    (w0 w1 : World) : Prop :=
  let r := params self in
  let cwd := getcwd w0 in
  let source_dir := parent (Path_of_string (module_file w0)) in
  let file_name := VStr (Path_str (absolute cwd (folder // "recording.h5"))) in
  let f1 := <[fs_key w0 (Path_str (folder // "recording.h5")) := rec_data rec]>
              (files w0) in
  exists hp flt pf cs lm hpf lpf dt npc tm tc master config,
    hdsort_path w0 = VStr hp
    /\ entry r "filter" (heap w0) = Some flt
    /\ entry r "parfor" (heap w0) = Some pf
    /\ entry r "chunk_size" (heap w0) = Some cs
    /\ entry r "loop_mode" (heap w0) = Some lm
    /\ entry r "hpf" (heap w0) = Some hpf
    /\ entry r "lpf" (heap w0) = Some lpf
    /\ entry r "detect_threshold" (heap w0) = Some dt
    /\ entry r "n_pc_dims" (heap w0) = Some npc
    /\ f1 !! fs_key w0 (Path_str (source_dir // "hdsort_master.m")) = Some tm
    /\ f1 !! fs_key w0 (Path_str (source_dir // "hdsort_config.m")) = Some tc
    /\ format tm (master_kwargs cwd (module_file w0) hp folder file_name
                    (VStr "mea1k") (VStr "hdsort_output") cs lm) = Ok master
    /\ format tc (config_kwargs (filter_literal flt) (parfor_literal pf)
                    hpf lpf dt npc) = Ok config
    /\ heap w1
       = store r "parfor" (parfor_literal pf)
           (store r "filter" (filter_literal flt)
              (store r "sort_name" (VStr "hdsort_output")
                 (store r "file_format" (VStr "mea1k")
                    (store r "file_name" file_name (heap w0)))))
    /\ files w1
       = <[fs_key w0 (Path_str (folder // "hdsort_config.m")) := config]>
           (<[fs_key w0 (Path_str (folder // "hdsort_master.m")) := master]> f1)
    /\ same_env w0 w1.

End Expected.
End Expected.

(** ** More concrete worlds *)

Module Scenarios.
Import Py PathLib OS Collaborators BaseSorter HDSort DecimalFloat.

(** The demo world with [HDSORT_PATH] unset and the class attributes as
    the class body then leaves them. *)
Definition world_no_env : World :=
  set_class_attrs VNone false (set_environ (fun _ => ∅) (Demo.world 0)).

(** An adapter class that the demo registry does not hold. *)
Definition other_cls : SorterClass :=
  {| class_name := "OtherSorter";
     cls_sorter_name := "other";
     cls_installed := false;
     cls_default_params := ∅;
     cls_default_folder := "other_output";
     cls_setup_recording := fun _ _ _ => ret tt;
     cls_run := fun _ _ _ => ret tt;
     cls_get_result_from_folder := get_result_from_folder;
     cls_get_sorter_version := ret "0" |}.

(** The worlds that have the environment, the files and the working
    directory of the demo world. *)
Definition version_kept (w : World) : Prop :=
  environ w = environ (Demo.world 0) /\ files w = files (Demo.world 0)
  /\ getcwd w = getcwd (Demo.world 0).

(** The first line of the demo [version.txt], as [readline] returns it. *)
Definition demo_version (name : string) : string := "1.0.2" +:+ newline.

End Scenarios.

(** * Properties *)

(** ** Paths: parsing the text of a path gives the path back *)

Module PathFacts.
Import Py PathLib.

Lemma split_slash_free c : slash_free c = true -> split_slash c = [c].
Proof.
  induction c as [|a c IH]; simpl; [done|].
  destruct (Ascii.eqb a "/"); simpl; [done|].
  intros Hc. by rewrite IH.
Qed.

Lemma split_slash_app c rest :
  slash_free c = true ->
  split_slash (c +:+ "/" +:+ rest) = c :: split_slash rest.
Proof.
  induction c as [|a c IH]; simpl; [done|].
  destruct (Ascii.eqb a "/"); simpl; [done|].
  intros Hc. by rewrite IH.
Qed.

Lemma split_slash_all_free s :
  Forall (fun c => slash_free c = true) (split_slash s).
Proof.
  induction s as [|a s IH]; simpl; [by repeat constructor|].
  destruct (Ascii.eqb a "/") eqn:Ha; [by constructor|].
  destruct (split_slash s) as [|x r]; [by repeat constructor; simpl; rewrite Ha|].
  inversion IH; subst. constructor; [simpl; by rewrite Ha|done].
Qed.

Lemma split_join ps :
  ps <> [] -> Forall (fun c => slash_free c = true) ps ->
  split_slash (join_slash ps) = ps.
Proof.
  induction ps as [|a ps IH]; [done|].
  intros _ Hall. inversion Hall as [|? ? Ha Hps]; subst.
  destruct ps as [|b ps]; simpl.
  - by apply split_slash_free.
  - rewrite split_slash_app by done. f_equal. by apply IH.
Qed.

Lemma filter_all {A} (f : A -> bool) l :
  Forall (fun x => f x = true) l -> List.filter f l = l.
Proof.
  induction 1 as [|x l Hx _ IH]; simpl; [done|]. by rewrite Hx, IH.
Qed.

Lemma comp_ok_split c :
  comp_ok c = true -> is_component c = true /\ slash_free c = true.
Proof. unfold comp_ok. by intros [? ?]%andb_prop. Qed.

Lemma leading_join c ps :
  comp_ok c = true -> leading_slashes (join_slash (c :: ps)) = 0.
Proof.
  intros [Hc Hf]%comp_ok_split.
  destruct c as [|a c]; [done|]. simpl in Hf.
  destruct (Ascii.eqb a "/") eqn:Ha; [done|].
  destruct ps; simpl; by rewrite Ha.
Qed.

Lemma parts_join c ps :
  Forall (fun c => comp_ok c = true) (c :: ps) ->
  List.filter is_component (split_slash (join_slash (c :: ps))) = c :: ps.
Proof.
  intros Hall. rewrite split_join; [|done|].
  - apply filter_all. eapply Forall_impl; [exact Hall|].
    intros x Hx. by apply comp_ok_split in Hx as [? ?].
  - eapply Forall_impl; [exact Hall|].
    intros x Hx. by apply comp_ok_split in Hx as [? ?].
Qed.

Lemma Path_of_string_slash x :
  Path_of_string (String "/"%char x)
  = {| root := match leading_slashes x with 1 => "//" | _ => "/" end;
       parts := parts (Path_of_string x) |}.
Proof. unfold Path_of_string, parse_root. simpl. by destruct (leading_slashes x) as [|[|n]]. Qed.

Lemma Path_of_string_join c ps :
  Forall (fun c => comp_ok c = true) (c :: ps) ->
  Path_of_string (join_slash (c :: ps)) = {| root := EmptyString; parts := c :: ps |}.
Proof.
  intros Hps. assert (Hc : comp_ok c = true) by (by inversion Hps).
  unfold Path_of_string, parse_root.
  by rewrite (leading_join c ps Hc), (parts_join c ps Hps).
Qed.

Lemma Path_of_string_str p : wf_path p -> Path_of_string (Path_str p) = p.
Proof.
  destruct p as [r ps]. intros [Hr Hps]; simpl in *.
  destruct ps as [|c ps].
  - by destruct Hr as [->|[->| ->]].
  - assert (Hc : comp_ok c = true) by (by inversion Hps).
    pose proof (leading_join c ps Hc) as Hl.
    pose proof (Path_of_string_join c ps Hps) as Hp.
    unfold Path_str. cbn [root parts].
    destruct Hr as [->|[->| ->]].
    + exact Hp.
    + change ("/" +:+ join_slash (c :: ps)) with (String "/"%char (join_slash (c :: ps))).
      by rewrite Path_of_string_slash, Hl, Hp.
    + change ("//" +:+ join_slash (c :: ps))
        with (String "/"%char (String "/"%char (join_slash (c :: ps)))).
      rewrite !Path_of_string_slash, Hp.
      change (leading_slashes (String "/"%char (join_slash (c :: ps))))
        with (S (leading_slashes (join_slash (c :: ps)))).
      by rewrite Hl.
Qed.

Lemma Path_of_string_wf s : wf_path (Path_of_string s).
Proof.
  split; simpl.
  - unfold parse_root. destruct (leading_slashes s) as [|[|[|n]]]; auto.
  - apply List.Forall_forall. intros c [Hin Hc]%filter_In.
    unfold comp_ok. rewrite Hc. simpl.
    pose proof (split_slash_all_free s) as Hall.
    rewrite List.Forall_forall in Hall. by apply Hall.
Qed.

Lemma joinpath_wf p q : wf_path p -> wf_path q -> wf_path (joinpath p q).
Proof.
  intros [Hrp Hp] [Hrq Hq]. unfold joinpath.
  destruct (is_absolute q); [done|]. split; simpl; [done|].
  by apply Forall_app.
Qed.

Lemma absolute_wf cwd p : wf_path p -> wf_path (absolute cwd p).
Proof.
  intros Hp. unfold absolute. destruct (is_absolute p); [done|].
  apply joinpath_wf; [apply Path_of_string_wf|done].
Qed.

End PathFacts.

(** ** The installation probe *)

Module ProbeFacts.
Import Py PathLib OS Collaborators BaseSorter HDSort PathFacts.

Ltac unfold_m :=
  unfold emit in *; unfold bind, ret, raise, lift, get, modify in *.

Section Probe.
Context `{PyFloat}.

Lemma length_snoc s c : String.length (s +:+ String c EmptyString) = S (String.length s).
Proof. induction s as [|a s IH]; simpl; [done|]. by rewrite IH. Qed.

Lemma substring_prefix s t : String.substring 0 (String.length s) (s +:+ t) = s.
Proof.
  induction s as [|a s IH]; simpl; [by destruct t|]. by rewrite IH.
Qed.

Lemma strip_quotes_quoted s :
  strip_quotes (String dquote (s +:+ String dquote EmptyString)) = s.
Proof.
  unfold strip_quotes, slice_1_m1.
  cbn [startswith]. rewrite Ascii.eqb_refl.
  cbn [String.length String.substring]. rewrite length_snoc.
  replace (S (S (String.length s)) - 2) with (String.length s) by lia.
  apply substring_prefix.
Qed.

Lemma strip_quotes_unquoted s :
  startswith s dquote = false -> strip_quotes s = s.
Proof. unfold strip_quotes. by intros ->. Qed.

(** On a string the probe answers whether the marker directory exists. *)
Lemma check_if_installed_str path w :
  (check_if_installed (VStr path) w).1
  = Ok (dir_exists w
          (absolute (getcwd w) (Path_of_string (strip_quotes path))
           // "+hdsort")).
Proof.
  unfold check_if_installed, is_dir. unfold_m. simpl.
  rewrite Path_of_string_str by (apply absolute_wf, Path_of_string_wf).
  unfold dir_exists, fs_key. simpl.
  by destruct (bool_decide _).
Qed.



(** C10. With [HDSORT_PATH] unset, [get_sorter_version] returns
    ['unknown'] and leaves the world, trace included, as it was: no file is
    opened.  With the variable set to [p], the one effect is the attempt to
    read [version.txt] under [p]. *)
Theorem get_sorter_version_env (w : World) :
  match environ w !! "HDSORT_PATH" with
  | None => get_sorter_version w = (Ok "unknown", w)
  | Some p =>
      trace (get_sorter_version w).2
      = (trace w ++ [EvRead (os_path_join p "version.txt")])%list
  end.
Proof.
  unfold get_sorter_version, read_file. unfold_m.
  destruct (environ w !! "HDSORT_PATH") as [p|]; [|done]. simpl.
  by destruct (files w !! _).
Qed.

End Probe.

Import DecimalFloat.



(** C7. A path that opens with a quote and does not close with one loses
    its last character. *)
Theorem strip_quotes_drops_last_char :
  strip_quotes (String dquote "/opt/HDsort") = "/opt/HDsor".
Proof. reflexivity. Qed.

End ProbeFacts.

(** ** The sorter registry *)

Module RegistryFacts.
Import Py PathLib OS Collaborators BaseSorter SorterList.
Import ProbeFacts.

Section Registry.
Context `{PyFloat}.
Variable sorter_full_list : list SorterClass.

Lemma fold_insert_is_Some (l : list SorterClass) (d : gmap string SorterClass) n :
  is_Some (List.fold_left (fun d s => <[cls_sorter_name s := s]> d) l d !! n)
  <-> n ∈ List.map cls_sorter_name l \/ is_Some (d !! n).
Proof.
  revert d. induction l as [|a l IH]; intros d; simpl.
  - split; [by right|]. intros [Hin|?]; [|done]. by apply elem_of_nil in Hin.
  - rewrite IH, lookup_insert_is_Some, elem_of_cons.
    destruct (decide (cls_sorter_name a = n)) as [Heq|Hne]; intuition congruence.
Qed.

Lemma sorter_dict_registered n :
  is_Some (sorter_dict sorter_full_list !! n)
  <-> n ∈ List.map cls_sorter_name sorter_full_list.
Proof.
  unfold sorter_dict. rewrite fold_insert_is_Some, lookup_empty.
  split; [|by left]. intros [?|[? ?]]; done.
Qed.

Lemma elem_of_sorted n l : n ∈ sorted l <-> n ∈ l.
Proof. unfold sorted. by rewrite merge_sort_Permutation. Qed.

Lemma elem_of_available n :
  n ∈ available_sorters sorter_full_list
  <-> n ∈ List.map cls_sorter_name sorter_full_list.
Proof.
  unfold available_sorters.
  rewrite elem_of_sorted, <- sorter_dict_registered, list_elem_of_fmap.
  split.
  - intros [[k c] [-> Hkc]]. apply elem_of_map_to_list in Hkc. by exists c.
  - intros [c Hc]. exists (n, c). split; [done|]. by apply elem_of_map_to_list.
Qed.


(** C9. [available_sorters()] is sorted in the order of [str], holds no
    name twice, and holds every name of [installed_sorters()]. *)
Theorem available_sorters_sorted_nodup_superset :
  StronglySorted String.le (available_sorters sorter_full_list)
  /\ NoDup (available_sorters sorter_full_list)
  /\ (forall n, n ∈ installed_sorters sorter_full_list ->
                n ∈ available_sorters sorter_full_list).
Proof.
  split; [|split].
  - apply StronglySorted_merge_sort; apply _.
  - unfold available_sorters, sorted. rewrite merge_sort_Permutation.
    apply NoDup_fst_map_to_list.
  - intros n. rewrite elem_of_available. unfold installed_sorters.
    rewrite elem_of_sorted. unfold installed_sorter_list.
    rewrite !list_elem_of_In, !in_map_iff.
    intros (c & Hc & Hin). exists c. split; [done|].
    by apply filter_In in Hin as [? _].
Qed.

End Registry.

Import DecimalFloat.


End RegistryFacts.

(** ** Relations that every step of a stage keeps *)

Module StageFacts.
Import Py PathLib OS Collaborators BaseSorter HDSort.
Import ProbeFacts.

(** Membership in a list given by its elements. *)
Ltac in_list := apply list_elem_of_In; simpl; tauto.
Ltac not_in_list H :=
  apply list_elem_of_In in H; simpl in H; intuition discriminate.

Section Preservation.
Context `{PyFloat}.
Variable R : World -> World -> Prop.
Variable okev : event -> Prop.
Variable okheap : World -> gmap nat (gmap string value) -> Prop.
Hypothesis HR : stable R okev okheap.

Let R_refl := st_refl R okev okheap HR.
Let R_trans := st_trans R okev okheap HR.
Let R_log := st_log R okev okheap HR.
Let R_files := st_files R okev okheap HR.
Let R_dirs := st_dirs R okev okheap HR.
Let R_heap := st_heap R okev okheap HR.
Let okev_io := st_io R okev okheap HR.

Lemma preserves_ret {A} (a : A) : preserves R (ret a).
Proof. intros w. apply R_refl. Qed.

Lemma preserves_raise {A} e : preserves R (@raise _ A e).
Proof. intros w. apply R_refl. Qed.

Lemma preserves_lift {A} (r : result A) : preserves R (lift r).
Proof. intros w. apply R_refl. Qed.

Lemma preserves_get {A} (f : World -> A) : preserves R (get f).
Proof. intros w. apply R_refl. Qed.

Lemma preserves_modify f : (forall w, R w (f w)) -> preserves R (modify f).
Proof. intros Hf w. apply Hf. Qed.

Lemma preserves_bind {A B} (m : M A) (k : A -> M B) :
  preserves R m -> (forall a, preserves R (k a)) -> preserves R (bind m k).
Proof.
  intros Hm Hk w. unfold bind. specialize (Hm w).
  destruct (m w) as [[a|e] w1]; simpl in *; [|done].
  eapply R_trans; [exact Hm|apply Hk].
Qed.

Lemma preserves_emit e : okev e -> preserves R (emit e).
Proof. intros He. apply preserves_modify. intros w. by apply R_log. Qed.

Ltac pres_step :=
  first
    [ apply preserves_ret | apply preserves_raise | apply preserves_lift
    | apply preserves_get
    | apply preserves_emit; first [assumption | by apply okev_io]
    | apply preserves_modify; intros ?; cbv beta;
      first [ apply R_files | apply R_dirs | apply R_heap; cbv beta; by auto ]
    | assumption
    | apply preserves_bind; [|intros ?; cbv beta zeta]
    | match goal with
      | |- preserves _ (if ?b then _ else _) => destruct b
      | |- preserves _ (match ?x with _ => _ end) => destruct x
      end ].
Ltac pres := repeat pres_step.


Lemma preserves_is_dir p : preserves R (is_dir p).
Proof. unfold is_dir. pres. Qed.

Lemma preserves_makedirs path : preserves R (makedirs path).
Proof. unfold makedirs. pres. Qed.

Lemma preserves_read_file path : preserves R (read_file path).
Proof. unfold read_file. pres. Qed.

Lemma preserves_write_file path txt : preserves R (write_file path txt).
Proof. unfold write_file. pres. Qed.

Lemma preserves_getitem r k : preserves R (getitem r k).
Proof. unfold getitem. pres. Qed.

Lemma preserves_setitem r k v :
  (forall w, okheap w (<[r := <[k := v]> (deref r w)]> (heap w))) ->
  preserves R (setitem r k v).
Proof. intros Hok. unfold setitem. pres. Qed.

Lemma preserves_check_if_installed v : preserves R (check_if_installed v).
Proof.
  pose proof preserves_is_dir.
  unfold check_if_installed. destruct v; pres.
Qed.

Lemma preserves_write_recording rec path : preserves R (write_recording rec path).
Proof. pose proof preserves_write_file. unfold write_recording. pres. Qed.

Lemma preserves_ShellScript_start script : preserves R (ShellScript_start script).
Proof. unfold ShellScript_start. pres. Qed.

Lemma preserves_setup_recording self rec folder :
  okev (EvCall "_setup_recording") ->
  (forall k v w, k ∈ setup_keys ->
     okheap w (<[params self := <[k := v]> (deref (params self) w)]> (heap w))) ->
  preserves R (_setup_recording self rec folder).
Proof.
  intros Hev Hkeys.
  assert (Hset : forall k v, k ∈ setup_keys -> preserves R (setitem (params self) k v)).
  { intros k v Hk. apply preserves_setitem. intros w. by apply Hkeys. }
  pose proof preserves_check_if_installed as Hc.
  pose proof preserves_write_recording as Hw.
  pose proof preserves_read_file as Hr.
  pose proof preserves_write_file as Hwf.
  pose proof preserves_getitem as Hg.
  unfold _setup_recording.
  repeat first [ apply Hc | apply Hw | apply Hr | apply Hwf | apply Hg
               | apply Hset; unfold setup_keys; in_list
               | pres_step ].
Qed.

Lemma preserves_run self rec folder :
  okev (EvCall "_run") -> preserves R (_run self rec folder).
Proof.
  intros Hev.
  pose proof preserves_makedirs as Hm.
  pose proof preserves_ShellScript_start as Hs.
  pose proof preserves_write_file as Hwf.
  unfold _run, ShellScript_wait.
  repeat first [ apply Hm | apply Hs | apply Hwf | pres_step ].
Qed.

Lemma preserves_init cls rec folder grouping par verb del :
  (forall w d, okheap w (<[fresh (dom (heap w)) := d]> (heap w))) ->
  preserves R (init cls rec folder grouping par verb del).
Proof.
  intros Hnew. pose proof preserves_makedirs as Hm.
  unfold init, new_dict.
  repeat first [ apply Hm | pres_step ].
Qed.

Lemma preserves_set_params cls self kw :
  (forall k v w,
     okheap w (<[params self := <[k := v]> (deref (params self) w)]> (heap w))) ->
  preserves R (set_params cls self kw).
Proof.
  intros Hkeys. unfold set_params.
  destruct (List.find _ kw); [pres|].
  assert (Hfold : forall (m : M unit), preserves R m ->
    preserves R (List.fold_left
      (fun m kv => m;; setitem (params self) kv.1 kv.2) kw m)).
  { induction kw as [|kv kw IH]; intros m Hm; simpl; [done|].
    apply IH. apply preserves_bind; [done|]. intros _.
    apply preserves_setitem. intros w. apply Hkeys. }
  apply Hfold. pres.
Qed.

End Preservation.

End StageFacts.

(** ** The stages of a run *)

Module AdapterFacts.
Import Py PathLib OS Collaborators BaseSorter HDSort SorterList.
Import ProbeFacts StageFacts.

Section Adapter.
Context `{PyFloat}.

(** *** The params dict across the stages *)

Lemma heap_frame_refl r K h : heap_frame r K h h.
Proof. by split. Qed.

Lemma heap_frame_trans r K a b c :
  heap_frame r K a b -> heap_frame r K b c -> heap_frame r K a c.
Proof.
  intros [Hab1 Hab2] [Hbc1 Hbc2]. split.
  - intros r' k Hk. by rewrite Hbc1, Hab1.
  - intros r' k Hs. by apply Hbc2, Hab2.
Qed.

Lemma heap_frame_setitem r K (h : gmap nat (gmap string value)) k v :
  k ∈ K -> heap_frame r K h (<[r := <[k := v]> (default ∅ (h !! r))]> h).
Proof.
  intros Hk. split; intros r' k'.
  - intros Hout. destruct (decide (r' = r)) as [->|Hne].
    + rewrite lookup_insert_eq. simpl. rewrite lookup_insert_ne; [done|].
      intros ->. by apply Hout.
    + by rewrite lookup_insert_ne.
  - destruct (decide (r' = r)) as [->|Hne].
    + rewrite lookup_insert_eq. simpl. rewrite lookup_insert_is_Some.
      destruct (decide (k = k')); auto.
    + by rewrite lookup_insert_ne.
Qed.

(** C4, as amended.  Rendering writes into the params dict: it adds
    [file_name], [file_format] and [sort_name] and rewrites [filter] and
    [parfor]; it leaves every other entry of that dict and every other dict
    as they were and removes no entry.  Execute and finalize ([_run]) leave
    the whole heap of dicts untouched. *)
Theorem params_frame (self : Sorter) (rec : Recording) (folder : Path)
    (w : World) :
  (forall k, k ∉ setup_keys ->
     deref (params self) (_setup_recording self rec folder w).2 !! k
     = deref (params self) w !! k)
  /\ (forall k, is_Some (deref (params self) w !! k) ->
        is_Some (deref (params self) (_setup_recording self rec folder w).2 !! k))
  /\ (forall r, r <> params self ->
        deref r (_setup_recording self rec folder w).2 = deref r w)
  /\ heap (_run self rec folder w).2 = heap w.
Proof.
  assert (Hsetup : heap_frame (params self) setup_keys (heap w)
                     (heap (_setup_recording self rec folder w).2)).
  { apply (preserves_setup_recording
             (fun a b => heap_frame (params self) setup_keys (heap a) (heap b))
             (fun _ => True)
             (fun a h' => heap_frame (params self) setup_keys (heap a) h')).
    - split; try done;
        first [ by intros; apply heap_frame_refl
              | intros a b c; apply heap_frame_trans ].
    - done.
    - intros k v a Hk. by apply heap_frame_setitem. }
  destruct Hsetup as [Hsame Hkeep].
  split; [|split; [|split]].
  - intros k Hk. apply Hsame. by intros _.
  - intros k. apply Hkeep.
  - intros r Hr. apply map_eq. intros k. by apply Hsame.
  - apply (preserves_run (fun a b => heap b = heap a) (fun _ => True)
             (fun _ _ => False)); [|done].
    split; try done. intros a b c Hab Hbc. by rewrite Hbc.
Qed.

(** *** Execute and finalize *)

Lemma shell_cmd_ok (plat folder : string) :
  exists script,
    (if contains "win" plat && negb (String.eqb plat "darwin")
     then format shell_cmd_win [("tmpdir", VStr folder)]
     else format shell_cmd_posix [("tmpdir", VStr folder)]) = Ok script.
Proof.
  destruct (contains "win" plat && negb (String.eqb plat "darwin"));
    eexists; vm_compute; reflexivity.
Qed.

(** What [_run] does, up to the test of the exit code: the child runs on
    the files it finds, and then either the run is aborted or the sidecar
    file is written. *)
Lemma _run_cases self rec folder w :
  exists script w2,
    getcwd w2 = getcwd w
    /\ shell w2 = shell w
    /\ files w2 = (shell w script (files w)).1
    /\ (exists evs, trace w2 = (trace w ++ EvCall "_run" :: evs)%list
                    /\ Forall (fun e => is_io e = true) evs)
    /\ _run self rec folder w
       = if ((shell w script (files w)).2 =? 0)%Z
         then write_file (Path_str (folder // "samplerate.txt"))
                (float_repr (sampling_frequency rec)) w2
         else (Raise (PyException nonzero_exit_msg), w2).
Proof.
  destruct (shell_cmd_ok (platform w) (Path_str folder)) as [script Hs].
  exists script. eexists. 
  unfold _run, makedirs, ShellScript_start, ShellScript_wait. unfold_m.
  cbn [log set_dirs set_files platform getcwd shell files dirs trace fst snd].
  rewrite Hs.
  split; [|split; [|split; [|split]]]; cycle 4.
  - destruct ((shell w script (files w)).2 =? 0)%Z; cbn [negb]; reflexivity.
  - reflexivity.
  - reflexivity.
  - reflexivity.
  - simpl. eexists. rewrite <- !app_assoc. simpl. split; [reflexivity|].
    by repeat constructor.
Qed.

Lemma run_nonzero_exit self rec folder w c :
  (forall script fs, (shell w script fs).2 = c) -> c <> 0%Z ->
  (_run self rec folder w).1 = Raise (PyException nonzero_exit_msg).
Proof.
  intros Hc Hnz. destruct (_run_cases self rec folder w)
    as (script & w2 & _ & _ & _ & _ & ->).
  rewrite Hc. by apply Z.eqb_neq in Hnz as ->.
Qed.

Lemma write_file_ok path txt w :
  (write_file path txt w).1 = Ok tt ->
  files (write_file path txt w).2 = <[fs_key w path := txt]> (files w)
  /\ getcwd (write_file path txt w).2 = getcwd w.
Proof.
  unfold write_file. unfold_m. simpl.
  by destruct (bool_decide _).
Qed.

(** Parse reads the working directory and two files of the output
    folder, and nothing else of the world. *)
Lemma get_result_from_folder_local folder w1 w2 :
  getcwd w1 = getcwd w2 ->
  files w1 !! fs_key w1 (Path_str (folder // "samplerate.txt"))
  = files w2 !! fs_key w2 (Path_str (folder // "samplerate.txt")) ->
  files w1 !! fs_key w1 (Path_str (folder // "firings.mda"))
  = files w2 !! fs_key w2 (Path_str (folder // "firings.mda")) ->
  (get_result_from_folder folder w1).1 = (get_result_from_folder folder w2).1.
Proof.
  intros Hcwd Hs Hf.
  unfold get_result_from_folder, MdaSortingExtractor, read_file. unfold_m.
  cbn [log files getcwd fst snd]. unfold fs_key in *.
  cbn [log files getcwd fst snd]. rewrite Hs.
  destruct (files w2 !! _) as [txt|]; [|done].
  destruct (float_of_string txt) as [x|]; [|done].
  cbn [log files getcwd fst snd]. rewrite Hf.
  by destruct (files w2 !! _).
Qed.

(** C8. After a successful [_run] the sidecar file holds the text of the
    recording's sampling frequency, and [get_result_from_folder], given
    the folder alone, builds the result with the frequency parsed back from
    that text: the recording's own, whenever printing and parsing a float
    round-trip.  What Parse returns depends on the working directory and on
    two files of the output folder only. *)
Theorem samplerate_roundtrip (self : Sorter) (rec : Recording) (folder : Path)
    (w w' : World) :
  _run self rec folder w = (Ok tt, w') ->
  float_of_string (float_repr (sampling_frequency rec))
  = Some (sampling_frequency rec) ->
  files w' !! fs_key w' (Path_str (folder // "samplerate.txt"))
  = Some (float_repr (sampling_frequency rec))
  /\ (is_Some (files w' !! fs_key w' (Path_str (folder // "firings.mda"))) ->
      (get_result_from_folder folder w').1
      = Ok {| file_path := Path_str (folder // "firings.mda");
              sorting_sampling_frequency := sampling_frequency rec |})
  /\ (forall w2,
        getcwd w2 = getcwd w' ->
        files w2 !! fs_key w2 (Path_str (folder // "samplerate.txt"))
        = files w' !! fs_key w' (Path_str (folder // "samplerate.txt")) ->
        files w2 !! fs_key w2 (Path_str (folder // "firings.mda"))
        = files w' !! fs_key w' (Path_str (folder // "firings.mda")) ->
        (get_result_from_folder folder w2).1
        = (get_result_from_folder folder w').1).
Proof.
  intros Hrun Hfloat.
  assert (Hside : files w' !! fs_key w' (Path_str (folder // "samplerate.txt"))
                  = Some (float_repr (sampling_frequency rec))).
  { destruct (_run_cases self rec folder w)
      as (script & w2 & Hcwd & _ & _ & _ & Hcases).
    rewrite Hcases in Hrun.
    destruct ((shell w script (files w)).2 =? 0)%Z; [|discriminate Hrun].
    destruct (write_file_ok (Path_str (folder // "samplerate.txt"))
                (float_repr (sampling_frequency rec)) w2) as [Hf Hc].
    { by rewrite Hrun. }
    rewrite Hrun in Hf, Hc. simpl in Hf, Hc.
    unfold fs_key in *. rewrite Hf, Hc. apply lookup_insert_eq. }
  split; [exact Hside|]. split.
  - intros [mda Hmda].
    unfold get_result_from_folder, MdaSortingExtractor, read_file. unfold_m.
    unfold fs_key in *. cbn [log files getcwd fst snd].
    rewrite Hside, Hfloat. cbn [log files getcwd fst snd].
    by rewrite Hmda.
  - intros w2. apply get_result_from_folder_local.
Qed.

(** *** A failing child process *)

Lemma trace_ext_stable fns :
  stable (trace_ext (not_call fns)) (not_call fns) (fun _ _ => True).
Proof.
  split.
  - intros a. split; [done|]. exists []. by rewrite app_nil_r.
  - intros a b c [Hs1 (e1 & H1 & F1)] [Hs2 (e2 & H2 & F2)].
    split; [congruence|]. exists (e1 ++ e2)%list.
    rewrite H2, H1, app_assoc. split; [done|]. by apply Forall_app.
  - intros a e He. split; [done|]. exists [e]. by repeat constructor.
  - intros a f. split; [done|]. exists []. simpl. by rewrite app_nil_r.
  - intros a f. split; [done|]. exists []. simpl. by rewrite app_nil_r.
  - intros a f _. split; [done|]. exists []. simpl. by rewrite app_nil_r.
  - intros e He fn _ ->. discriminate He.
Qed.

Lemma trace_ext_trans ok a b c :
  trace_ext ok a b -> trace_ext ok b c -> trace_ext ok a c.
Proof.
  intros [Hs1 (e1 & H1 & F1)] [Hs2 (e2 & H2 & F2)].
  split; [congruence|]. exists (e1 ++ e2)%list.
  rewrite H2, H1, app_assoc. split; [done|]. by apply Forall_app.
Qed.

Lemma trace_ext_weaken (fns fns' : list string) a b :
  fns' ⊆ fns -> trace_ext (not_call fns) a b -> trace_ext (not_call fns') a b.
Proof.
  intros Hsub [Hs (evs & Ht & Hall)]. split; [done|]. exists evs.
  split; [done|]. eapply Forall_impl; [exact Hall|].
  intros e He fn Hfn. apply He. by apply Hsub.
Qed.

Lemma early_failure w wk (e : exn) :
  trace_ext (not_call from_execute_on) w wk ->
  exists evs,
    trace wk = (trace w ++ evs)%list
    /\ (EvCall "get_result_from_folder" ∉ evs)
    /\ (EvCall "_run" ∈ evs -> e = PyException nonzero_exit_msg).
Proof.
  intros [_ (evs & Ht & Hall)]. exists evs. split; [done|].
  rewrite Forall_forall in Hall. split.
  - intros Hin. apply (Hall _ Hin "get_result_from_folder"); [|done].
    unfold from_execute_on. in_list.
  - intros Hin. exfalso. apply (Hall _ Hin "_run"); [|done].
    unfold from_execute_on. in_list.
Qed.


End Adapter.

Import DecimalFloat.

(** C4, as stated, fails: rendering adds [file_name] to the params dict
    and rewrites [filter] from [True] to [1]. *)
Lemma setup_rewrites_params :
  (Demo.params_around_setup ["file_name"; "filter"] (Demo.world 0)).1
  = Ok ([None; Some (VBool true)],
        [Some (VStr "/data/out/recording.h5"); Some (VInt 1)]).
Proof. reflexivity. Qed.



(** The demo run with a child that exits with code 0: 30000.0 goes
    through the sidecar file and comes back. *)
Lemma samplerate_roundtrip_witness :
  (_run Demo.sorter0 Demo.rec30k (Path_of_string "out") (Demo.world 0)).1 = Ok tt
  /\ float_of_string (float_repr (sampling_frequency Demo.rec30k))
     = Some (sampling_frequency Demo.rec30k)
  /\ float_repr (sampling_frequency Demo.rec30k) = "30000.0"
  /\ (get_result_from_folder (Path_of_string "out")
        (_run Demo.sorter0 Demo.rec30k (Path_of_string "out") (Demo.world 0)).2).1
     = Ok {| file_path := "out/firings.mda";
             sorting_sampling_frequency := sampling_frequency Demo.rec30k |}.
Proof.
  assert (Hok : (_run Demo.sorter0 Demo.rec30k (Path_of_string "out")
                      (Demo.world 0)).1 = Ok tt) by reflexivity.
  assert (Hf : float_of_string (float_repr (sampling_frequency Demo.rec30k))
               = Some (sampling_frequency Demo.rec30k)) by reflexivity.
  split; [exact Hok|]. split; [exact Hf|]. split; [reflexivity|].
  refine (proj1 (proj2 (samplerate_roundtrip Demo.sorter0 Demo.rec30k
            (Path_of_string "out") (Demo.world 0) _ _ Hf)) _).
  - destruct (_run Demo.sorter0 Demo.rec30k (Path_of_string "out") (Demo.world 0))
      as [r w'] eqn:E. simpl in Hok. by subst r.
  - eexists. reflexivity.
Defined.

(** C2. With [parfor] set to [False], the first render writes
    [P.parfor = false] and the second, on the same adapter with the same
    recording and folder, writes [P.parfor = true]: the first render stored
    the text ['false'] back into the params dict, and a non-empty text is
    true. *)
Theorem render_twice_differs :
  (Demo.render_twice (VBool false) (Demo.world 0)).1
  = Ok ("P.filter = 1; P.parfor = false;" +:+ newline
        +:+ "P.hpf = 300; P.lpf = 7000;" +:+ newline
        +:+ "P.detect_threshold = 4.2; P.n_pc_dims = 6;" +:+ newline,
        "P.filter = 1; P.parfor = true;" +:+ newline
        +:+ "P.hpf = 300; P.lpf = 7000;" +:+ newline
        +:+ "P.detect_threshold = 4.2; P.n_pc_dims = 6;" +:+ newline).
Proof. reflexivity. Qed.

End AdapterFacts.

(** ** The class attributes and the version probe *)

Module PathSettingFacts.
Import Py PathLib OS Collaborators BaseSorter HDSort Expected.
Import PathFacts ProbeFacts.

Section PathSetting.
Context `{PyFloat}.

Lemma slice_quoted s : slice_1_m1 (String dquote (s +:+ String dquote EmptyString)) = s.
Proof.
  unfold slice_1_m1. cbn [String.length String.substring]. rewrite length_snoc.
  replace (S (S (String.length s)) - 2) with (String.length s) by lia.
  apply substring_prefix.
Qed.

(** A state run that returns [a] ends in its second component. *)
Lemma run_eta {A} (m : M A) (w : World) (a : A) :
  (m w).1 = Ok a -> m w = (Ok a, (m w).2).
Proof. destruct (m w) as [r w']. simpl. by intros ->. Qed.

(** X2. A path that does not open with a double quote gets the same answer
    from the installation probe with and without a pair of double quotes
    around it. *)
Theorem probe_ignores_matched_quotes (s : string) (w : World) :
  startswith s dquote = false ->
  (check_if_installed (VStr (String dquote (s +:+ String dquote EmptyString))) w).1
  = (check_if_installed (VStr s) w).1.
Proof.
  intros Hs. rewrite !check_if_installed_str. do 3 f_equal.
  rewrite (strip_quotes_unquoted s Hs).
  unfold strip_quotes. cbn [startswith]. rewrite Ascii.eqb_refl.
  by rewrite slice_quoted.
Qed.

(** The probe logs at most one event and changes nothing else. *)
Lemma check_if_installed_world v w :
  match v with
  | VStr _ => exists e, (check_if_installed v w).2 = log e w
  | _ => (check_if_installed v w).2 = w
  end.
Proof.
  destruct v; try reflexivity.
  unfold check_if_installed, is_dir. unfold_m. simpl.
  eexists. by destruct (dir_exists _ _).
Qed.

Lemma check_if_installed_log v e w :
  (check_if_installed v (log e w)).1 = (check_if_installed v w).1.
Proof.
  destruct v; try reflexivity. by rewrite !check_if_installed_str.
Qed.


(** X4. When [HDSORT_PATH] is unset at import, a render that follows the
    class body fails with the installation message. *)
Theorem unset_path_blocks_setup (self : Sorter) (rec : Recording)
    (folder : Path) (w : World) :
  environ w !! "HDSORT_PATH" = None ->
  (bind class_body (fun _ => _setup_recording self rec folder) w).1
  = Raise (PyException installation_mesg)
  /\ installed (class_body w).2 = false
  /\ hdsort_path (class_body w).2 = VNone.
Proof.
  intros Hp. unfold class_body. unfold_m. rewrite Hp. simpl. done.
Qed.


(** X6. [set_hdsort_path] on a value that is not a string: [None] is
    stored, [installed] becomes false and the environment is not touched;
    any other value is stored in the class attribute before the probe's
    assertion fails, so the call raises [AssertionError] with the attribute
    already changed and [installed] and the environment as they were. *)
Theorem set_hdsort_path_not_str (v : value) (w : World) :
  match v with
  | VStr _ => True
  | VNone =>
      (set_hdsort_path v w).1 = Ok tt
      /\ hdsort_path (set_hdsort_path v w).2 = VNone
      /\ installed (set_hdsort_path v w).2 = false
      /\ environ (set_hdsort_path v w).2 = environ w
  | _ =>
      (set_hdsort_path v w).1 = Raise AssertionError
      /\ hdsort_path (set_hdsort_path v w).2 = v
      /\ installed (set_hdsort_path v w).2 = installed w
      /\ environ (set_hdsort_path v w).2 = environ w
  end.
Proof. by destruct v. Qed.


Lemma readline_line (line rest : string) :
  contains newline line = false ->
  readline (line +:+ newline +:+ rest) = line +:+ newline.
Proof.
  induction line as [|c line IH]; [done|].
  cbn [contains]. intros [Hc Hline]%orb_false_elim.
  destruct (Ascii.eqb c "010") eqn:E.
  { apply Ascii.eqb_eq in E. subst c. exfalso. revert Hc. unfold newline.
    cbn [String.prefix]. destruct (ascii_dec "010" "010"); [|done].
    by destruct line. }
  simpl. rewrite E. by rewrite IH.
Qed.

Lemma readline_whole (txt : string) :
  contains newline txt = false -> readline txt = txt.
Proof.
  induction txt as [|c txt IH]; [done|].
  cbn [contains]. intros [Hc Htxt]%orb_false_elim.
  destruct (Ascii.eqb c "010") eqn:E.
  { apply Ascii.eqb_eq in E. subst c. exfalso. revert Hc. unfold newline.
    cbn [String.prefix]. destruct (ascii_dec "010" "010"); [|done].
    by destruct txt. }
  simpl. rewrite E. by rewrite IH.
Qed.


(** X9. When the probe on the class attribute answers false,
    [_setup_recording] raises the installation message and has written no
    file, made no directory and changed no dict. *)
Theorem setup_recording_requires_install (self : Sorter) (rec : Recording)
    (folder : Path) (w : World) :
  (check_if_installed (hdsort_path w) w).1 = Ok false ->
  (_setup_recording self rec folder w).1 = Raise (PyException installation_mesg)
  /\ files (_setup_recording self rec folder w).2 = files w
  /\ dirs (_setup_recording self rec folder w).2 = dirs w
  /\ heap (_setup_recording self rec folder w).2 = heap w.
Proof.
  intros Hno.
  cut (exists w', _setup_recording self rec folder w
                  = (Raise (PyException installation_mesg), w')
                  /\ files w' = files w /\ dirs w' = dirs w /\ heap w' = heap w).
  { by intros (w' & -> & ?). }
  unfold _setup_recording.
  unfold bind at 1. unfold emit, modify at 1. cbv beta iota.
  unfold bind at 1. unfold get at 1. cbv beta iota.
  unfold bind at 1.
  change (hdsort_path (log (EvCall "_setup_recording") w)) with (hdsort_path w).
  pose proof (check_if_installed_log (hdsort_path w) (EvCall "_setup_recording") w) as Hl.
  pose proof (check_if_installed_world (hdsort_path w)
                (log (EvCall "_setup_recording") w)) as Hw.
  rewrite Hno in Hl.
  destruct (check_if_installed (hdsort_path w) (log (EvCall "_setup_recording") w))
    as [r w1]. simpl in Hl, Hw. subst r. cbn [negb]. unfold raise.
  exists w1. split; [done|].
  destruct (hdsort_path w) as [| | | |s];
    [subst w1; done ..|destruct Hw as [e ->]; done].
Qed.

End PathSetting.

Import DecimalFloat.

(** The demo path, in quotes and bare. *)
Lemma probe_ignores_matched_quotes_witness :
  startswith "/opt/HDsort" dquote = false
  /\ (check_if_installed
        (VStr (String dquote ("/opt/HDsort" +:+ String dquote EmptyString)))
        (Demo.world 0)).1
     = (check_if_installed (VStr "/opt/HDsort") (Demo.world 0)).1.
Proof.
  split; [reflexivity|].
  apply (probe_ignores_matched_quotes "/opt/HDsort" (Demo.world 0)). reflexivity.
Defined.

(** The demo world with the variable unset. *)
Lemma unset_path_blocks_setup_witness :
  environ Scenarios.world_no_env !! "HDSORT_PATH" = None
  /\ (bind class_body
        (fun _ => _setup_recording Demo.sorter0 Demo.rec30k (Path_of_string "out"))
        Scenarios.world_no_env).1
     = Raise (PyException installation_mesg).
Proof.
  split; [reflexivity|].
  apply (unset_path_blocks_setup Demo.sorter0 Demo.rec30k (Path_of_string "out")
           Scenarios.world_no_env).
  reflexivity.
Defined.


(** The demo world with the class attribute [None]. *)
Lemma setup_recording_requires_install_witness :
  (check_if_installed (hdsort_path Scenarios.world_no_env)
     Scenarios.world_no_env).1 = Ok false
  /\ (_setup_recording Demo.sorter0 Demo.rec30k (Path_of_string "out")
        Scenarios.world_no_env).1
     = Raise (PyException installation_mesg).
Proof.
  split; [reflexivity|].
  apply (setup_recording_requires_install Demo.sorter0 Demo.rec30k
           (Path_of_string "out") Scenarios.world_no_env).
  reflexivity.
Defined.

End PathSettingFacts.

(** ** Execute and parse *)

Module RunFacts.
Import Py PathLib OS Collaborators BaseSorter HDSort SorterList Expected.
Import PathFacts ProbeFacts StageFacts AdapterFacts.

Section Run.
Context `{PyFloat}.

(** *** Paths under the output folder *)

Lemma ancestors_self (p : Path) : p ∈ ancestors_and_self p.
Proof.
  unfold ancestors_and_self. apply list_elem_of_In, in_map_iff.
  exists (length (parts p)). split.
  - destruct p as [r ps]. simpl. by rewrite firstn_all.
  - apply in_seq. lia.
Qed.

Lemma parent_child (cwd : string) (folder : Path) (name : string) :
  comp_ok name = true ->
  parent (absolute cwd (folder // name)) = absolute cwd folder.
Proof.
  intros Hname.
  assert (Hq : Path_of_string name = {| root := EmptyString; parts := [name] |}).
  { apply (Path_of_string_join name []). by constructor. }
  unfold truediv. rewrite Hq. unfold absolute, joinpath, is_absolute, parent.
  cbn [root parts String.eqb negb].
  destruct (negb (String.eqb (root folder) EmptyString)); cbn [root parts].
  - rewrite removelast_last. by destruct folder.
  - by rewrite app_assoc, removelast_last.
Qed.

Lemma child_str (folder : Path) (name : string) :
  wf_path folder ->
  Path_of_string (Path_str (folder // name)) = folder // name.
Proof.
  intros Hf. apply Path_of_string_str.
  apply joinpath_wf; [done|apply Path_of_string_wf].
Qed.

(** *** The script *)

Lemma append_assoc_str (a b c : string) : (a +:+ b) +:+ c = a +:+ (b +:+ c).
Proof.
  induction a as [|x a IH]; [done|].
  change (String x ((a +:+ b) +:+ c) = String x (a +:+ (b +:+ c))).
  by rewrite IH.
Qed.

Lemma format_posix folder :
  format shell_cmd_posix [("tmpdir", VStr folder)] = Ok (posix_script folder).
Proof. vm_compute. rewrite !append_assoc_str. reflexivity. Qed.

Lemma format_win folder :
  format shell_cmd_win [("tmpdir", VStr folder)] = Ok (win_script folder).
Proof. vm_compute. rewrite !append_assoc_str. reflexivity. Qed.

Lemma format_run_script plat folder :
  (if contains "win" plat && negb (String.eqb plat "darwin")
   then format shell_cmd_win [("tmpdir", VStr folder)]
   else format shell_cmd_posix [("tmpdir", VStr folder)])
  = Ok (run_script plat folder).
Proof.
  unfold run_script.
  destruct (contains "win" plat && negb (String.eqb plat "darwin"));
    [apply format_win|apply format_posix].
Qed.

(** *** Execute and finalize *)

(** What [_run] does up to the test of the exit code. *)
Lemma run_steps self rec folder w :
  exists w2,
    getcwd w2 = getcwd w
    /\ dirs w2
       = dirs w ∪ list_to_set (List.map Path_str
           (ancestors_and_self
              (absolute (getcwd w) (Path_of_string (Path_str folder)))))
    /\ files w2 = (shell w (run_script (platform w) (Path_str folder)) (files w)).1
    /\ heap w2 = heap w
    /\ environ w2 = environ w
    /\ trace w2
       = (trace w ++ [EvCall "_run"; EvMakedirs (Path_str folder);
                      EvSpawn (run_script (platform w) (Path_str folder))])%list
    /\ _run self rec folder w
       = if ((shell w (run_script (platform w) (Path_str folder)) (files w)).2 =? 0)%Z
         then write_file (Path_str (folder // "samplerate.txt"))
                (float_repr (sampling_frequency rec)) w2
         else (Raise (PyException nonzero_exit_msg), w2).
Proof.
  eexists.
  split; [|split; [|split; [|split; [|split; [|split]]]]]; cycle 6.
  - unfold _run, makedirs, ShellScript_start, ShellScript_wait. unfold_m.
    cbn [log set_dirs set_files platform getcwd shell files dirs trace fst snd].
    rewrite format_run_script.
    destruct ((shell w _ (files w)).2 =? 0)%Z; cbn [negb]; reflexivity.
  - reflexivity.
  - reflexivity.
  - reflexivity.
  - reflexivity.
  - reflexivity.
  - simpl. by rewrite <- !app_assoc.
Qed.

Lemma write_file_world path txt w :
  dirs (write_file path txt w).2 = dirs w
  /\ heap (write_file path txt w).2 = heap w
  /\ environ (write_file path txt w).2 = environ w
  /\ trace (write_file path txt w).2 = (trace w ++ [EvWrite path])%list.
Proof.
  unfold write_file. unfold_m. simpl.
  by destruct (bool_decide _).
Qed.



(** *** Parse *)

(** X15. The outcome of [get_result_from_folder], case by case: a missing
    [samplerate.txt] raises [FileNotFoundError], a text that is no float
    raises [ValueError], a missing [firings.mda] raises
    [FileNotFoundError], and otherwise the result names [firings.mda] and
    carries the float read from [samplerate.txt]. *)
Theorem get_result_from_folder_cases (folder : Path) (w : World) :
  (get_result_from_folder folder w).1
  = match files w !! fs_key w (Path_str (folder // "samplerate.txt")) with
    | None => Raise (FileNotFoundError (Path_str (folder // "samplerate.txt")))
    | Some txt =>
        match float_of_string txt with
        | None => Raise (ValueError "could not convert string to float")
        | Some samplerate =>
            match files w !! fs_key w (Path_str (folder // "firings.mda")) with
            | None => Raise (FileNotFoundError (Path_str (folder // "firings.mda")))
            | Some _ =>
                Ok {| file_path := Path_str (folder // "firings.mda");
                      sorting_sampling_frequency := samplerate |}
            end
        end
    end.
Proof.
  unfold get_result_from_folder, MdaSortingExtractor, read_file. unfold_m.
  unfold fs_key. cbn [log files getcwd fst snd].
  destruct (files w !! _) as [txt|]; [|done].
  destruct (float_of_string txt) as [x|]; [|done].
  cbn [log files getcwd fst snd].
  by destruct (files w !! _).
Qed.

Lemma get_result_from_folder_world folder w :
  files (get_result_from_folder folder w).2 = files w
  /\ dirs (get_result_from_folder folder w).2 = dirs w
  /\ heap (get_result_from_folder folder w).2 = heap w
  /\ environ (get_result_from_folder folder w).2 = environ w
  /\ getcwd (get_result_from_folder folder w).2 = getcwd w.
Proof.
  unfold get_result_from_folder, MdaSortingExtractor, read_file. unfold_m.
  cbn [log files getcwd fst snd].
  destruct (files w !! _) as [txt|]; [|done].
  destruct (float_of_string txt) as [x|]; [|done].
  cbn [log files getcwd fst snd].
  by destruct (files w !! _).
Qed.

(** X16. Parsing changes no file, no directory, no dict and no environment
    variable, whether it returns or raises, so parsing the same folder
    again gives the same outcome. *)
Theorem parse_is_repeatable (folder : Path) (w : World) :
  files (get_result_from_folder folder w).2 = files w
  /\ dirs (get_result_from_folder folder w).2 = dirs w
  /\ heap (get_result_from_folder folder w).2 = heap w
  /\ environ (get_result_from_folder folder w).2 = environ w
  /\ (get_result_from_folder folder (get_result_from_folder folder w).2).1
     = (get_result_from_folder folder w).1.
Proof.
  destruct (get_result_from_folder_world folder w) as (Hf & Hd & Hh & He & Hc).
  repeat split; try done.
  apply get_result_from_folder_local; [done| |]; unfold fs_key; by rewrite Hf, Hc.
Qed.

End Run.

Import DecimalFloat.


End RunFacts.

(** ** What a render leaves behind *)

Module RenderFacts.
Import Py PathLib OS Collaborators BaseSorter HDSort Hoare Expected.
Import PathFacts ProbeFacts PathSettingFacts.

Section Rules.
Context `{PyFloat}.
Implicit Types (w : World) (P Q : World -> Prop).

Lemma same_env_refl w : same_env w w.
Proof. by repeat split. Qed.

Lemma store_entry_eq r k v h : entry r k (store r k v h) = Some v.
Proof. unfold entry, store. rewrite lookup_insert_eq. simpl. apply lookup_insert_eq. Qed.

Lemma store_entry_ne r k k' v h : k <> k' -> entry r k' (store r k v h) = entry r k' h.
Proof.
  intros Hne. unfold entry, store. rewrite lookup_insert_eq. simpl.
  by rewrite lookup_insert_ne.
Qed.

Lemma ens_conseq {A} (m : M A) P P' Q Q' :
  (forall w, P' w -> P w) -> (forall w, Q w -> Q' w) ->
  ensures m P Q -> ensures m P' Q'.
Proof. intros HP HQ Hm w a w' Hw Hrun. eapply HQ, Hm; eauto. Qed.

Lemma ens_raise {A} e P Q : ensures (@raise _ A e) P Q.
Proof. intros w a w' _ Hrun. discriminate Hrun. Qed.

Lemma ens_bind {A B} (m : M A) (k : A -> M B) P Q R :
  ensures m P Q -> (forall a, ensures (k a) Q R) -> ensures (bind m k) P R.
Proof.
  intros Hm Hk w b w' Hw Hrun. unfold bind in Hrun.
  destruct (m w) as [[a|e] w1] eqn:E; [|discriminate Hrun].
  eapply Hk; [|exact Hrun]. eapply Hm; eauto.
Qed.

Lemma ens_bind_emit {B} e (k : unit -> M B) w0 Hp Fp Q :
  ensures (k tt) (on w0 Hp Fp) Q -> ensures (bind (emit e) k) (on w0 Hp Fp) Q.
Proof.
  intros Hk w b w' Hw Hrun. eapply Hk; [|exact Hrun]. exact Hw.
Qed.

Lemma ens_bind_get {A B} (f : World -> A) (k : A -> M B) P Q :
  (forall x, ensures (k x) P Q) -> ensures (bind (get f) k) P Q.
Proof. intros Hk w b w' Hw Hrun. eapply Hk; [exact Hw|exact Hrun]. Qed.

Lemma ens_bind_getcwd {B} (k : string -> M B) w0 Hp Fp Q :
  ensures (k (getcwd w0)) (on w0 Hp Fp) Q ->
  ensures (bind (get getcwd) k) (on w0 Hp Fp) Q.
Proof.
  intros Hk w b w' Hw Hrun. eapply Hk; [exact Hw|].
  destruct Hw as (_ & _ & _ & _ & <- & _). exact Hrun.
Qed.

Lemma ens_bind_module_file {B} (k : string -> M B) w0 Hp Fp Q :
  ensures (k (module_file w0)) (on w0 Hp Fp) Q ->
  ensures (bind (get module_file) k) (on w0 Hp Fp) Q.
Proof.
  intros Hk w b w' Hw Hrun. eapply Hk; [exact Hw|].
  destruct Hw as (_ & _ & _ & _ & _ & <- & _). exact Hrun.
Qed.

Lemma ens_bind_hdsort_path {B} (k : value -> M B) w0 Hp Fp Q :
  ensures (k (hdsort_path w0)) (on w0 Hp Fp) Q ->
  ensures (bind (get hdsort_path) k) (on w0 Hp Fp) Q.
Proof.
  intros Hk w b w' Hw Hrun. eapply Hk; [exact Hw|].
  destruct Hw as (_ & _ & _ & _ & _ & _ & _ & _ & <- & _). exact Hrun.
Qed.

Lemma ens_bind_lift {A B} (r : result A) (k : A -> M B) P Q :
  (forall x, r = Ok x -> ensures (k x) P Q) -> ensures (bind (lift r) k) P Q.
Proof.
  intros Hk w b w' Hw Hrun. unfold bind, lift in Hrun.
  destruct r as [x|e]; [|discriminate Hrun]. eapply Hk; eauto.
Qed.

Lemma ens_bind_check {B} v (k : bool -> M B) w0 Hp Fp Q :
  (forall b, (check_if_installed v w0).1 = Ok b -> ensures (k b) (on w0 Hp Fp) Q) ->
  ensures (bind (check_if_installed v) k) (on w0 Hp Fp) Q.
Proof.
  intros Hk w b w' Hw Hrun. unfold bind in Hrun.
  destruct (check_if_installed v w) as [[inst|e] w1] eqn:E; [|discriminate Hrun].
  assert (Hsame : (check_if_installed v w0).1 = Ok inst /\ on w0 Hp Fp w1).
  { destruct Hw as (Hh & Hf & He). destruct He as (? & ? & Hc & ? & Hd & ? & ? & ?).
    destruct v as [| | | |s]; try discriminate E.
    - injection E as <- <-. by repeat split.
    - revert E. unfold check_if_installed, is_dir, dir_exists, fs_key. unfold_m.
      simpl. rewrite Hc, Hd. intros E.
      destruct (bool_decide _); injection E as <- <-; by repeat split. }
  destruct Hsame as [Hb Hw1]. eapply (Hk inst Hb); eauto.
Qed.

Lemma ens_bind_getitem {B} r key (k : value -> M B) w0 Hp Fp Q :
  (forall v, ensures (k v) (on w0 (fun h => Hp h /\ entry r key h = Some v) Fp) Q) ->
  ensures (bind (getitem r key) k) (on w0 Hp Fp) Q.
Proof.
  intros Hk w b w' Hw Hrun. unfold getitem in Hrun. unfold_m.
  unfold deref in Hrun. simpl in Hrun.
  destruct (default ∅ (heap w !! r) !! key) as [v|] eqn:E; [|discriminate Hrun].
  eapply (Hk v); [|exact Hrun].
  destruct Hw as (Hh & Hf & He). split; [by split|by split].
Qed.

Lemma ens_bind_setitem {B} r key v (k : unit -> M B) w0 Hp Fp Q :
  ensures (k tt) (on w0 (fun h' => exists h, Hp h /\ h' = store r key v h) Fp) Q ->
  ensures (bind (setitem r key v) k) (on w0 Hp Fp) Q.
Proof.
  intros Hk w b w' Hw Hrun. eapply Hk; [|exact Hrun].
  destruct Hw as (Hh & Hf & He). split; [|by split].
  exists (heap w). by split.
Qed.

Lemma ens_bind_read {B} path (k : string -> M B) w0 Hp Fp Q :
  (forall txt,
     ensures (k txt)
       (on w0 Hp (fun f => Fp f /\ f !! fs_key w0 path = Some txt)) Q) ->
  ensures (bind (read_file path) k) (on w0 Hp Fp) Q.
Proof.
  intros Hk w b w' Hw Hrun. unfold read_file in Hrun. unfold_m. simpl in Hrun.
  destruct Hw as (Hh & Hf & He).
  assert (Hkey : fs_key w path = fs_key w0 path).
  { unfold fs_key. by destruct He as (_ & _ & -> & _). }
  unfold fs_key in *. simpl in Hrun. rewrite Hkey in Hrun.
  destruct (files w !! _) as [txt|] eqn:E; [|discriminate Hrun].
  eapply (Hk txt); [|exact Hrun]. split; [done|]. split; [by split|done].
Qed.

Lemma write_file_sp path txt w0 Hp Fp :
  ensures (write_file path txt) (on w0 Hp Fp)
    (on w0 Hp (fun f' => exists f, Fp f /\ f' = <[fs_key w0 path := txt]> f)).
Proof.
  intros w a w' Hw Hrun. unfold write_file in Hrun. unfold_m. simpl in Hrun.
  destruct Hw as (Hh & Hf & He).
  assert (Hkey : fs_key w path = fs_key w0 path).
  { unfold fs_key. by destruct He as (_ & _ & -> & _). }
  destruct (bool_decide _); [|discriminate Hrun].
  assert (Hw' : w' = set_files <[fs_key (log (EvWrite path) w) path:=txt]>
                       (log (EvWrite path) w)) by congruence.
  subst w'. split; [exact Hh|]. split; [|exact He].
  exists (files w). split; [done|]. simpl. unfold fs_key in *. simpl. by rewrite Hkey.
Qed.

Lemma ens_bind_write {B} path txt (k : unit -> M B) w0 Hp Fp Q :
  ensures (k tt)
    (on w0 Hp (fun f' => exists f, Fp f /\ f' = <[fs_key w0 path := txt]> f)) Q ->
  ensures (bind (write_file path txt) k) (on w0 Hp Fp) Q.
Proof. intros Hk. eapply ens_bind; [apply write_file_sp|]. by intros []. Qed.

Lemma ens_bind_write_recording {B} rec path (k : unit -> M B) w0 Hp Fp Q :
  ensures (k tt)
    (on w0 Hp (fun f' => exists f, Fp f /\ f' = <[fs_key w0 path := rec_data rec]> f))
    Q ->
  ensures (bind (write_recording rec path) k) (on w0 Hp Fp) Q.
Proof.
  intros Hk. eapply ens_bind; [|by intros []].
  unfold write_recording. apply ens_bind_emit, write_file_sp.
Qed.

End Rules.

Ltac ens_step :=
  lazymatch goal with
  | |- ensures (bind (emit _) _) _ _ => apply ens_bind_emit
  | |- ensures (bind (get getcwd) _) _ _ => apply ens_bind_getcwd
  | |- ensures (bind (get module_file) _) _ _ => apply ens_bind_module_file
  | |- ensures (bind (get hdsort_path) _) _ _ => apply ens_bind_hdsort_path
  | |- ensures (bind (check_if_installed _) _) _ _ =>
      apply ens_bind_check; intros ? ?
  | |- ensures (bind (lift _) _) _ _ => apply ens_bind_lift; intros ? ?
  | |- ensures (bind (getitem _ _) _) _ _ => apply ens_bind_getitem; intros ?
  | |- ensures (bind (setitem _ _ _) _) _ _ => apply ens_bind_setitem
  | |- ensures (bind (read_file _) _) _ _ => apply ens_bind_read; intros ?
  | |- ensures (bind (write_file _ _) _) _ _ => apply ens_bind_write
  | |- ensures (bind (write_recording _ _) _) _ _ => apply ens_bind_write_recording
  | |- ensures (bind (if ?b then _ else _) _) _ _ => destruct b eqn:?
  | |- ensures (if ?b then _ else _) _ _ => destruct b eqn:?
  | |- ensures (match ?v with _ => _ end) _ _ => destruct v eqn:?
  | |- ensures (raise _) _ _ => apply ens_raise
  end; cbv beta zeta.

Section Setup.
Context `{PyFloat}.

Lemma setup_ensures self rec folder w0 :
  ensures (_setup_recording self rec folder)
    (on w0 (eq (heap w0)) (eq (files w0)))
    (rendered self rec folder w0).
Proof.
  unfold _setup_recording.
  repeat ens_step.
  all: eapply ens_conseq; [intros w Hw; exact Hw| |apply write_file_sp].
  all: intros w (Hh & Hf & He).
  all: repeat match goal with
              | Hx : exists _, _ |- _ => destruct Hx
              | Hx : _ /\ _ |- _ => destruct Hx
              end.
  all: subst.
  all: repeat match goal with
              | Hh : heap ?w = store _ _ _ _, Hx : entry _ _ (heap ?w) = _ |- _ =>
                  rewrite Hh in Hx
              end.
  all: repeat match goal with
              | Hx : entry _ _ (store _ _ _ _) = _ |- _ =>
                  first [ rewrite store_entry_eq in Hx
                        | rewrite store_entry_ne in Hx by done ]
              end.
  all: simplify_eq.
  all: unfold rendered, filter_literal, parfor_literal, master_kwargs, config_kwargs.
  all: do 13 eexists.
  all: repeat match goal with |- _ /\ _ => split end.
  all: try eassumption.
  all: repeat match goal with Hx : truthy _ = _ |- _ => rewrite Hx end.
  all: try eassumption; try reflexivity.
  all: try (symmetry; eassumption).
Qed.

Lemma setup_success self rec folder w w' :
  _setup_recording self rec folder w = (Ok tt, w') -> rendered self rec folder w w'.
Proof.
  intros Hrun. eapply (setup_ensures self rec folder w w tt w'); [|exact Hrun].
  split; [done|]. split; [done|]. apply same_env_refl.
Qed.

Lemma truthy_parfor_literal v : truthy (parfor_literal v) = true.
Proof. unfold parfor_literal. by destruct (truthy v). Qed.

Lemma filter_literal_idem v : filter_literal (filter_literal v) = filter_literal v.
Proof. unfold filter_literal. by destruct (truthy v). Qed.

(** X10. A render that returns has set, in the adapter's params, [file_name]
    to the absolute path of [recording.h5] in the output folder,
    [file_format] to [mea1k], [sort_name] to [hdsort_output], [filter] to 1
    or 0 and [parfor] to the text [true] or [false], by the truth value the
    entry had before. *)
Theorem render_updates_params (self : Sorter) (rec : Recording) (folder : Path)
    (w w' : World) :
  _setup_recording self rec folder w = (Ok tt, w') ->
  exists flt pf,
    deref (params self) w !! "filter" = Some flt
    /\ deref (params self) w !! "parfor" = Some pf
    /\ deref (params self) w' !! "file_name"
       = Some (VStr (Path_str (absolute (getcwd w) (folder // "recording.h5"))))
    /\ deref (params self) w' !! "file_format" = Some (VStr "mea1k")
    /\ deref (params self) w' !! "sort_name" = Some (VStr "hdsort_output")
    /\ deref (params self) w' !! "filter"
       = Some (VInt (if truthy flt then 1 else 0))
    /\ deref (params self) w' !! "parfor"
       = Some (VStr (if truthy pf then "true" else "false")).
Proof.
  intros Hrun. apply setup_success in Hrun.
  destruct Hrun as (hp & flt & pf & cs & lm & hpf & lpf & dt & npc & tm & tc
                    & master & config & _ & Hflt & Hpf & _ & _ & _ & _ & _ & _
                    & _ & _ & _ & _ & Hheap & _ & _).
  exists flt, pf. split; [exact Hflt|]. split; [exact Hpf|].
  change (deref (params self) w') with (default ∅ (heap w' !! params self)).
  fold (entry (params self) "file_name" (heap w')).
  fold (entry (params self) "file_format" (heap w')).
  fold (entry (params self) "sort_name" (heap w')).
  fold (entry (params self) "filter" (heap w')).
  fold (entry (params self) "parfor" (heap w')).
  rewrite Hheap.
  repeat split;
    repeat first [ rewrite store_entry_eq | rewrite store_entry_ne by done ];
    reflexivity.
Qed.

(** X11. A render that returns has written [hdsort_config.m] in the output
    folder as the config template formatted with the six entries that the
    params hold after the render, has left [hdsort_master.m] and
    [recording.h5] there, and has made no directory and changed no
    environment variable. *)
Theorem render_writes_scripts (self : Sorter) (rec : Recording) (folder : Path)
    (w w' : World) :
  _setup_recording self rec folder w = (Ok tt, w') ->
  exists tc config flt pf hpf lpf dt npc,
    <[fs_key w (Path_str (folder // "recording.h5")) := rec_data rec]> (files w)
    !! fs_key w (Path_str (parent (Path_of_string (module_file w))
                           // "hdsort_config.m")) = Some tc
    /\ deref (params self) w' !! "filter" = Some flt
    /\ deref (params self) w' !! "parfor" = Some pf
    /\ deref (params self) w' !! "hpf" = Some hpf
    /\ deref (params self) w' !! "lpf" = Some lpf
    /\ deref (params self) w' !! "detect_threshold" = Some dt
    /\ deref (params self) w' !! "n_pc_dims" = Some npc
    /\ format tc (config_kwargs flt pf hpf lpf dt npc) = Ok config
    /\ files w' !! fs_key w (Path_str (folder // "hdsort_config.m")) = Some config
    /\ is_Some (files w' !! fs_key w (Path_str (folder // "hdsort_master.m")))
    /\ is_Some (files w' !! fs_key w (Path_str (folder // "recording.h5")))
    /\ dirs w' = dirs w
    /\ environ w' = environ w.
Proof.
  intros Hrun. apply setup_success in Hrun.
  destruct Hrun as (hp & flt & pf & cs & lm & hpf & lpf & dt & npc & tm & tc
                    & master & config & _ & Hflt & Hpf & _ & _ & Hhpf & Hlpf
                    & Hdt & Hnpc & _ & Htc & _ & Hcfg & Hheap & Hfiles & Henv).
  exists tc, config, (filter_literal flt), (parfor_literal pf), hpf, lpf, dt, npc.
  split; [exact Htc|].
  change (deref (params self) w') with (default ∅ (heap w' !! params self)).
  fold (entry (params self) "filter" (heap w')).
  fold (entry (params self) "parfor" (heap w')).
  fold (entry (params self) "hpf" (heap w')).
  fold (entry (params self) "lpf" (heap w')).
  fold (entry (params self) "detect_threshold" (heap w')).
  fold (entry (params self) "n_pc_dims" (heap w')).
  rewrite Hheap, Hfiles.
  destruct Henv as (Henviron & _ & _ & _ & Hdirs & _).
  repeat split;
    repeat first [ rewrite store_entry_eq | rewrite store_entry_ne by done ];
    try done.
  - apply lookup_insert_eq.
  - apply lookup_insert_is_Some'. right. apply lookup_insert_is_Some'. by left.
  - apply lookup_insert_is_Some'. right. apply lookup_insert_is_Some'. right.
    apply lookup_insert_is_Some'. by left.
Qed.


End Setup.

Import DecimalFloat.


(** One render in the demo world returns, and so does a second one after
    it. *)
Lemma demo_render_ok :
  (_setup_recording Demo.sorter0 Demo.rec30k (Path_of_string "out")
       (Demo.world 0)).1 = Ok tt.
Proof. reflexivity. Qed.

Lemma demo_render_twice_ok :
  (_setup_recording Demo.sorter0 Demo.rec30k (Path_of_string "out")
       (_setup_recording Demo.sorter0 Demo.rec30k (Path_of_string "out")
          (Demo.world 0)).2).1 = Ok tt.
Proof. reflexivity. Qed.

Lemma render_updates_params_witness :
  exists flt pf,
    deref (params Demo.sorter0) (Demo.world 0) !! "filter" = Some flt
    /\ deref (params Demo.sorter0) (Demo.world 0) !! "parfor" = Some pf
    /\ deref (params Demo.sorter0)
         (_setup_recording Demo.sorter0 Demo.rec30k (Path_of_string "out")
       (Demo.world 0)).2 !! "file_name"
       = Some (VStr (Path_str (absolute (getcwd (Demo.world 0))
                                 (Path_of_string "out" // "recording.h5"))))
    /\ deref (params Demo.sorter0)
         (_setup_recording Demo.sorter0 Demo.rec30k (Path_of_string "out")
       (Demo.world 0)).2 !! "file_format"
       = Some (VStr "mea1k")
    /\ deref (params Demo.sorter0)
         (_setup_recording Demo.sorter0 Demo.rec30k (Path_of_string "out")
       (Demo.world 0)).2 !! "sort_name"
       = Some (VStr "hdsort_output")
    /\ deref (params Demo.sorter0)
         (_setup_recording Demo.sorter0 Demo.rec30k (Path_of_string "out")
       (Demo.world 0)).2 !! "filter"
       = Some (VInt (if truthy flt then 1 else 0))
    /\ deref (params Demo.sorter0)
         (_setup_recording Demo.sorter0 Demo.rec30k (Path_of_string "out")
       (Demo.world 0)).2 !! "parfor"
       = Some (VStr (if truthy pf then "true" else "false")).
Proof.
  exact (render_updates_params Demo.sorter0 Demo.rec30k (Path_of_string "out")
           (Demo.world 0) _
           (run_eta (_setup_recording Demo.sorter0 Demo.rec30k (Path_of_string "out"))
              (Demo.world 0) tt demo_render_ok)).
Defined.

Lemma render_writes_scripts_witness :
  exists config,
    files (_setup_recording Demo.sorter0 Demo.rec30k (Path_of_string "out")
       (Demo.world 0)).2
    !! fs_key (Demo.world 0) (Path_str (Path_of_string "out" // "hdsort_config.m"))
    = Some config
    /\ dirs (_setup_recording Demo.sorter0 Demo.rec30k (Path_of_string "out")
       (Demo.world 0)).2
       = dirs (Demo.world 0).
Proof.
  destruct (render_writes_scripts Demo.sorter0 Demo.rec30k (Path_of_string "out")
              (Demo.world 0) _
              (run_eta (_setup_recording Demo.sorter0 Demo.rec30k (Path_of_string "out"))
                 (Demo.world 0) tt demo_render_ok))
    as (tc & config & flt & pf & hpf & lpf & dt & npc & _ & _ & _ & _ & _ & _
        & _ & _ & Hconfig & _ & _ & Hdirs & _).
  exists config. split; [exact Hconfig|exact Hdirs].
Defined.


End RenderFacts.

(** ** More on the registry *)

Module LookupFacts.
Import Py PathLib OS Collaborators BaseSorter HDSort SorterList Expected.
Import ProbeFacts RegistryFacts RunFacts.

Section Lookup.
Context `{PyFloat}.
Variable sorter_full_list : list SorterClass.

(** The dict comprehension keeps, for each name, the last class of the
    list that carries it. *)
Lemma fold_insert_last (l : list SorterClass) (d : gmap string SorterClass) n :
  List.fold_left (fun d s => <[cls_sorter_name s := s]> d) l d !! n
  = match last (List.filter (fun c => String.eqb (cls_sorter_name c) n) l) with
    | Some c => Some c
    | None => d !! n
    end.
Proof.
  revert d. induction l as [|a l IH]; intros d; [done|].
  cbn [List.fold_left List.filter]. rewrite IH.
  destruct (String.eqb (cls_sorter_name a) n) eqn:E.
  - apply String.eqb_eq in E. rewrite last_cons.
    destruct (last _); [done|]. by rewrite E, lookup_insert_eq.
  - apply String.eqb_neq in E. destruct (last _); [done|].
    by rewrite lookup_insert_ne.
Qed.

Lemma sorter_dict_last n :
  sorter_dict sorter_full_list !! n
  = last (List.filter (fun c => String.eqb (cls_sorter_name c) n) sorter_full_list).
Proof.
  unfold sorter_dict. rewrite fold_insert_last, lookup_empty. by destruct (last _).
Qed.

Lemma sorter_dict_class n c :
  sorter_dict sorter_full_list !! n = Some c ->
  c ∈ sorter_full_list /\ cls_sorter_name c = n.
Proof.
  rewrite sorter_dict_last. intros Hc%last_Some_elem_of.
  apply list_elem_of_In, filter_In in Hc as [Hin Hn].
  split; [by apply list_elem_of_In|by apply String.eqb_eq].
Qed.

(** X17. When several classes of [sorter_full_list] carry the same name,
    the registry resolves the name to the last of them, and
    [get_default_params] by name returns the defaults of that class; a name
    that no class carries raises [KeyError].  The world is not touched. *)
Theorem registry_resolves_last (n : string) (w : World) :
  sorter_dict sorter_full_list !! n
  = last (List.filter (fun c => String.eqb (cls_sorter_name c) n) sorter_full_list)
  /\ get_default_params sorter_full_list (ByName n) w
     = (match last (List.filter (fun c => String.eqb (cls_sorter_name c) n)
                      sorter_full_list) with
        | Some c => Ok (cls_default_params c)
        | None => Raise (KeyError n)
        end, w).
Proof.
  split; [apply sorter_dict_last|].
  unfold get_default_params, resolve. unfold_m. rewrite sorter_dict_last.
  by destruct (last _).
Qed.

(** X18. A class that is not in [sorter_full_list] is rejected by
    [run_sorter] and by [get_default_params] with
    [ValueError('Unknown sorter')], before anything is built or run: the
    world is left as it was. *)
Theorem unknown_class_rejected (cls : SorterClass) (rec : Recording)
    (folder : option string) (del : bool) (grouping : option string)
    (par verb : bool) (params : list (string * value)) (w : World) :
  class_in cls sorter_full_list = false ->
  run_sorter sorter_full_list (ByClass cls) rec folder del grouping par verb
             params w
  = (Raise (ValueError "Unknown sorter"), w)
  /\ get_default_params sorter_full_list (ByClass cls) w
     = (Raise (ValueError "Unknown sorter"), w).
Proof.
  intros Hcls. unfold run_sorter, get_default_params, resolve. unfold_m.
  by rewrite Hcls.
Qed.

(** X19. [available_sorters()] holds exactly the names that the classes of
    [sorter_full_list] carry. *)
Theorem available_sorters_exact (n : string) :
  n ∈ available_sorters sorter_full_list
  <-> exists cls, cls ∈ sorter_full_list /\ cls_sorter_name cls = n.
Proof.
  rewrite elem_of_available, list_elem_of_In, in_map_iff.
  split; intros (c & Hc & Hin); exists c.
  - split; [by apply list_elem_of_In|done].
  - split; [done|by apply list_elem_of_In].
Qed.

(** X20. [installed_sorters()] is sorted in the order of [str] and is a
    rearrangement of the names of the installed classes: a name carried by
    two installed classes is listed twice. *)
Theorem installed_sorters_sorted_perm :
  StronglySorted String.le (installed_sorters sorter_full_list)
  /\ installed_sorters sorter_full_list
     ≡ₚ List.map cls_sorter_name (List.filter cls_installed sorter_full_list).
Proof.
  split.
  - apply StronglySorted_merge_sort; apply _.
  - unfold installed_sorters, installed_sorter_list, sorted.
    apply merge_sort_Permutation.
Qed.

Lemma append_nil_r_str (a : string) : a +:+ EmptyString = a.
Proof.
  induction a as [|x a IH]; [done|].
  change (String x (a +:+ EmptyString) = String x a). by rewrite IH.
Qed.

(** The loop of [print_sorter_versions] over the names [names], started
    with the text [acc]. *)
Lemma fold_versions (I : World -> Prop) (version : string -> string)
    (names : list string) :
  (forall c w0, c ∈ sorter_full_list -> I w0 ->
     exists w1, cls_get_sorter_version c w0 = (Ok (version (cls_sorter_name c)), w1)
                /\ I w1) ->
  (forall n, n ∈ names -> n ∈ List.map cls_sorter_name sorter_full_list) ->
  forall (m : M string) (acc : string) (w w0 : World),
    m w = (Ok acc, w0) -> I w0 ->
    exists w1,
      I w1
      /\ List.fold_left
           (fun acc name =>
              let! txt := acc in
              let! cls := match sorter_dict sorter_full_list !! name with
                          | Some cls => ret cls
                          | None => raise (KeyError name)
                          end in
              let! version := cls_get_sorter_version cls in
              ret (txt +:+ name +:+ ": " +:+ version +:+ newline))
           names m w
         = (Ok (acc +:+ concat_lines (List.map (version_line version) names)), w1).
Proof.
  intros Hver. induction names as [|n names IH]; intros Hnames m acc w w0 Hm HI.
  - exists w0. split; [done|]. simpl. by rewrite append_nil_r_str.
  - assert (Hn : is_Some (sorter_dict sorter_full_list !! n)).
    { apply sorter_dict_registered, Hnames. by left. }
    destruct Hn as [c Hc].
    destruct (sorter_dict_class n c Hc) as [Hin Hname].
    destruct (Hver c w0 Hin HI) as (w1 & Hv & HI1).
    cbn [List.fold_left List.map concat_lines].
    rewrite <- append_assoc_str.
    eapply IH; [intros n' Hn'; apply Hnames; by right| |exact HI1].
    unfold_m. rewrite Hm, Hc, Hv, Hname. reflexivity.
Qed.

(** X21. [print_sorter_versions] prints one text and nothing else: for each
    name of [installed_sorters()], in that order, the line
    [name: version] with a line end, the last line end dropped.  The
    version of a name is the one reported by the class that the registry
    resolves the name to.  [I] is any property of the world that the
    version probes keep and under which each of them returns. *)
Theorem print_sorter_versions_lines (I : World -> Prop)
    (version : string -> string) (w : World) :
  I w ->
  (forall c w0, c ∈ sorter_full_list -> I w0 ->
     exists w1, cls_get_sorter_version c w0 = (Ok (version (cls_sorter_name c)), w1)
                /\ I w1) ->
  exists w1,
    I w1
    /\ print_sorter_versions sorter_full_list w
       = (Ok tt,
          log (EvPrint (drop_last (concat_lines
                 (List.map (version_line version)
                    (installed_sorters sorter_full_list))))) w1).
Proof.
  intros HI Hver.
  destruct (fold_versions I version (installed_sorters sorter_full_list) Hver)
    with (m := @ret _ string EmptyString) (acc := EmptyString) (w := w) (w0 := w)
    as (w1 & HI1 & Hfold); [|done|done|].
  { intros n. unfold installed_sorters, installed_sorter_list.
    rewrite elem_of_sorted, !list_elem_of_In, !in_map_iff.
    intros (c & Hc & Hin). exists c. split; [done|].
    by apply filter_In in Hin as [? _]. }
  exists w1. split; [exact HI1|].
  unfold print_sorter_versions. unfold bind at 1. rewrite Hfold. reflexivity.
Qed.

End Lookup.

Import DecimalFloat.

(** A class outside the demo registry. *)
Lemma unknown_class_rejected_witness :
  class_in Scenarios.other_cls [Demo.hdsort_cls] = false
  /\ get_default_params [Demo.hdsort_cls] (ByClass Scenarios.other_cls) (Demo.world 0)
     = (Raise (ValueError "Unknown sorter"), Demo.world 0).
Proof.
  split; [reflexivity|].
  apply (unknown_class_rejected [Demo.hdsort_cls] Scenarios.other_cls Demo.rec30k
           None false None false false [] (Demo.world 0)).
  reflexivity.
Defined.

(** In the worlds that keep the demo environment and files, the version
    probe of the demo class returns the first line of the demo
    [version.txt]. *)
Lemma demo_version_kept (c : SorterClass) (w0 : World) :
  c ∈ [Demo.hdsort_cls] -> Scenarios.version_kept w0 ->
  exists w1,
    cls_get_sorter_version c w0
    = (Ok (Scenarios.demo_version (cls_sorter_name c)), w1)
    /\ Scenarios.version_kept w1.
Proof.
  intros ->%list_elem_of_singleton (He & Hf & Hc).
  eexists. split.
  - unfold Demo.hdsort_cls, HDSortSorter, cls_get_sorter_version.
    unfold get_sorter_version, read_file. unfold_m.
    rewrite He. change (environ (Demo.world 0) !! "HDSORT_PATH") with (Some "/opt/HDsort").
    unfold fs_key. cbn [log files getcwd fst snd]. rewrite Hf, Hc.
    reflexivity.
  - done.
Qed.

(** The demo registry in the demo world. *)
Lemma print_sorter_versions_lines_witness :
  exists w1,
    Scenarios.version_kept w1
    /\ print_sorter_versions [Demo.hdsort_cls] (Demo.world 0)
       = (Ok tt,
          log (EvPrint (drop_last (concat_lines
                 (List.map (version_line Scenarios.demo_version)
                    (installed_sorters [Demo.hdsort_cls]))))) w1).
Proof.
  apply (print_sorter_versions_lines [Demo.hdsort_cls] Scenarios.version_kept
           Scenarios.demo_version (Demo.world 0)).
  - by repeat split.
  - apply demo_version_kept.
Defined.

End LookupFacts.
